(** * XFS inode scanner: a shallow embedding of [xfs_inode_scanner.py]

    The Python program is embedded function by function.  Python integers
    are [Z], [bytes] objects are lists of [Byte.byte], [str] objects are
    [string], the dictionary built by [parse_xfs_ncheck] is a [gmap Z string].
    Exceptions are an explicit outcome of every operation that can raise,
    the file object is an explicit state (contents, position, fault), and
    the text written to standard output is a list of structured lines, one
    constructor per [print] statement of the source. *)

From Stdlib Require Import ZArith List Bool Strings.Byte Ascii String Lia Sorted.
From stdpp Require Import base decidable option list gmap strings.

Local Open Scope Z_scope.

(** ** Exceptions and outcomes *)

Inductive exn : Type :=
| OSError (msg : string)          (* open/read/seek failures *)
| StructError                     (* struct.error of struct.unpack *)
| IndexError                      (* subscript out of range *)
| ValueError (literal : string)   (* int() refused the string *)
| FileNotFoundError               (* the xfs_ncheck utility is missing *)
| CalledProcessError (code : Z)   (* xfs_ncheck exited non-zero *)
| UnicodeDecodeError.             (* bytes.decode() failed *)

(** [OutOfFuel] is the only outcome that is not a Python outcome: the
    [while] loops are run with a fuel bound, and the theorems show that the
    bound chosen by each top-level function is never exhausted. *)
Inductive result (A : Type) : Type :=
| Ok (a : A)
| Raise (e : exn)
| OutOfFuel.
Arguments Ok {A} a.
Arguments Raise {A} e.
Arguments OutOfFuel {A}.

Definition rbind {A B} (m : result A) (k : A -> result B) : result B :=
  match m with
  | Ok a => k a
  | Raise e => Raise e
  | OutOfFuel => OutOfFuel
  end.

Declare Scope res_scope.
Delimit Scope res_scope with res.
Notation "'do' x <- m ; k" := (rbind m (fun x => k))
  (at level 10, x name, m at level 100, k at level 200) : res_scope.

(** ** Bytes, slices and subscripts *)

Definition len {A} (l : list A) : Z := Z.of_nat (length l).

(** Python normalises a slice bound against the length of the sequence:
    a negative bound counts from the end, and every bound is clamped. *)
Definition norm_index (n i : Z) : Z :=
  if i <? 0 then Z.max 0 (i + n) else Z.min i n.

(** [l[lo:hi]] *)
Definition py_slice {A} (l : list A) (lo hi : Z) : list A :=
  let a := norm_index (len l) lo in
  let b := norm_index (len l) hi in
  take (Z.to_nat (b - a)) (drop (Z.to_nat a) l).

(** [l[i]], raising [IndexError] out of range. *)
Definition py_getitem {A} (l : list A) (i : Z) : result A :=
  let j := if i <? 0 then i + len l else i in
  if (0 <=? j) && (j <? len l) then
    match l !! Z.to_nat j with
    | Some x => Ok x
    | None => Raise IndexError
    end
  else Raise IndexError.

Definition byte_val (b : byte) : Z := Z.of_N (Byte.to_N b).

#[global] Instance byte_eq_decision : EqDecision byte := Byte.byte_eq_dec.

(** [a == b] on [bytes] objects *)
Definition bytes_eqb (a b : list byte) : bool := bool_decide (a = b).

(** [int.from_bytes(bs, byteorder='big')] *)
Definition int_from_bytes_big (bs : list byte) : Z :=
  fold_left (fun acc b => acc * 256 + byte_val b) bs 0.

(** [struct.unpack(">I", bs)[0]]: exactly four bytes, else [struct.error]. *)
Definition unpack_I (bs : list byte) : result Z :=
  if len bs =? 4 then Ok (int_from_bytes_big bs) else Raise StructError.

(** ** Constants (source lines 10-23) *)

Definition XFS_SUPERBLOCK_OFFSET : Z := 0.
Definition XFS_SUPERBLOCK_MAGIC : list byte := [x58; x46; x53; x42]. (* b'XFSB' *)
Definition INODE_MAGIC : list byte := [x49; x4e].                     (* b'IN' *)
Definition INODE_SIZE : Z := 512.

Definition FILE_TYPES : list (Z * string) :=
  [ (0x1, "FIFO"%string);
    (0x2, "Character Device"%string);
    (0x4, "Directory"%string);
    (0x6, "Block Device"%string);
    (0x8, "Regular File"%string);
    (0xA, "Symlink"%string);
    (0xC, "Socket"%string) ].

(** [FILE_TYPES.get(k)] and [k in FILE_TYPES] *)
Fixpoint dict_get (d : list (Z * string)) (k : Z) : option string :=
  match d with
  | [] => None
  | (k', v) :: d' => if k' =? k then Some v else dict_get d' k
  end.

Definition dict_mem (d : list (Z * string)) (k : Z) : bool :=
  match dict_get d k with Some _ => true | None => false end.

(** ** The file object *)

Record file : Type := mkFile {
  content : list byte;     (* the bytes of the image *)
  position : Z;            (* the stream position *)
  fault : option exn       (* [Some e]: every read raises [e] *)
}.

Definition IO (A : Type) : Type := file -> result (A * file).

Definition io_ret {A} (a : A) : IO A := fun f => Ok (a, f).

Definition io_bind {A B} (m : IO A) (k : A -> IO B) : IO B :=
  fun f => match m f with
           | Ok (a, f') => k a f'
           | Raise e => Raise e
           | OutOfFuel => OutOfFuel
           end.

Definition io_lift {A} (r : result A) : IO A :=
  fun f => match r with
           | Ok a => Ok (a, f)
           | Raise e => Raise e
           | OutOfFuel => OutOfFuel
           end.

Declare Scope io_scope.
Delimit Scope io_scope with io.
Notation "'do' x <- m ; k" := (io_bind m (fun x => k))
  (at level 10, x name, m at level 100, k at level 200) : io_scope.

(** [f.seek(offset)]: an absolute seek; a negative offset is refused. *)
Definition f_seek (offset : Z) : IO Z :=
  fun f =>
    if offset <? 0 then Raise (OSError "Invalid argument")
    else Ok (offset, mkFile (content f) offset (fault f)).

(** [f.seek(0, os.SEEK_END)] *)
Definition f_seek_end : IO Z :=
  fun f => Ok (len (content f), mkFile (content f) (len (content f)) (fault f)).

(** [f.tell()] *)
Definition f_tell : IO Z := fun f => Ok (position f, f).

(** [f.read(n)] for [n >= 0]: at most [n] bytes from the position, fewer
    at end of file, never an exception for a short read. *)
Definition f_read (n : Z) : IO (list byte) :=
  fun f =>
    match fault f with
    | Some e => Raise e
    | None =>
        let block := take (Z.to_nat n) (drop (Z.to_nat (position f)) (content f)) in
        Ok (block, mkFile (content f) (position f + len block) (fault f))
    end.

(** [f.read()]: everything from the position to the end of the file. *)
Definition f_read_all : IO (list byte) :=
  fun f =>
    match fault f with
    | Some e => Raise e
    | None =>
        let block := drop (Z.to_nat (position f)) (content f) in
        Ok (block, mkFile (content f) (position f + len block) (fault f))
    end.

(** ** [detect_xfs_magic] (source lines 25-27) *)

Definition detect_xfs_magic : IO bool :=
  (do _ <- f_seek XFS_SUPERBLOCK_OFFSET ;
   do magic <- f_read 4 ;
   io_ret (bytes_eqb magic XFS_SUPERBLOCK_MAGIC))%io.

(** ** [parse_file_type] (source lines 29-30) *)

Definition parse_file_type (mode_byte : Z) : Z :=
  Z.land (Z.shiftr mode_byte 4) 0xF.

(** ** [parse_times] (source lines 32-39) *)

Definition parse_times_try (block : list byte) : result (Z * Z * Z) :=
  (do atime <- unpack_I (py_slice block 32 36) ;
   do mtime <- unpack_I (py_slice block 40 44) ;
   do ctime <- unpack_I (py_slice block 48 52) ;
   Ok (atime, mtime, ctime))%res.

(** The bare [except:] turns every exception of the [try] body into the
    triple of zeros. *)
Definition parse_times (block : list byte) : Z * Z * Z :=
  match parse_times_try block with
  | Ok t => t
  | Raise _ => (0, 0, 0)
  | OutOfFuel => (0, 0, 0)
  end.

(** ** [scan_and_classify_inodes] (source lines 47-75) *)

Record inode_rec : Type := mkInode {
  inode : Z;
  type_code : Z;
  atime : Z;
  mtime : Z;
  ctime : Z
}.

Definition make_inode (offset : Z) (mode_byte : byte) (block : list byte) : inode_rec :=
  let type_code := parse_file_type (byte_val mode_byte) in
  let '(atime, mtime, ctime) := parse_times block in
  let inode_number := offset / INODE_SIZE in
  mkInode inode_number type_code atime mtime ctime.

(** One iteration of the [while] body at [offset]: [None] is [break],
    [Some inodes'] continues with [offset + INODE_SIZE]. *)
Definition scan_body (offset : Z) (inodes : list inode_rec) : IO (option (list inode_rec)) :=
  (do _ <- f_seek offset ;
   do block <- f_read INODE_SIZE ;
   if len block <? 4 then io_ret None
   else if bytes_eqb (py_slice block 0 2) INODE_MAGIC then
     do mode_byte <- io_lift (py_getitem block 2) ;
     io_ret (Some (inodes ++ [make_inode offset mode_byte block]))
   else io_ret (Some inodes))%io.

Fixpoint scan_loop (fuel : nat) (filesize offset : Z) (inodes : list inode_rec)
  : IO (list inode_rec) :=
  match fuel with
  | O => fun _ => OutOfFuel
  | S fuel' =>
      if offset <? filesize then
        (do r <- scan_body offset inodes ;
         match r with
         | None => io_ret inodes
         | Some inodes' => scan_loop fuel' filesize (offset + INODE_SIZE) inodes'
         end)%io
      else io_ret inodes
  end.

(** The loop runs at most once per 512-byte stride below [filesize]. *)
Definition scan_fuel (filesize : Z) : nat := Z.to_nat (filesize / INODE_SIZE) + 2.

Definition scan_and_classify_inodes (filesize : Z) : IO (list inode_rec) :=
  scan_loop (scan_fuel filesize) filesize 0 [].

(** ** Standard output *)

(** One constructor per [print] statement; the arguments are the values
    interpolated into the text. *)
Inductive line : Type :=
| LChecking (image_path : string)                    (* line 165 *)
| LNotXFS                                            (* line 167 *)
| LDetected                                          (* line 169 *)
| LNoInodes                                          (* line 183 *)
| LError (e : exn)                                   (* line 190 *)
| LWarning (e : exn)                                 (* line 88 *)
| LInode (inode_num : Z) (file_type name : string)   (* line 120 *)
| LTimes (atime mtime ctime : Z)                     (* lines 122-124 *)
| LTotal (total : Z)                                 (* line 127 *)
| LScanning                                          (* line 147 *)
| LShortform (inode_number offset entry_count : Z)   (* lines 153-155 *)
| LNoneFound                                         (* line 160 *)
| LUsage.                                            (* line 201 *)

(** A computation that prints: what it wrote stays written when it raises. *)
Definition Pr (A : Type) : Type := (list line * result A)%type.

Definition pr_ret {A} (a : A) : Pr A := ([], Ok a).

Definition pr_bind {A B} (m : Pr A) (k : A -> Pr B) : Pr B :=
  match m with
  | (out, Ok a) => let '(out', r) := k a in (out ++ out', r)
  | (out, Raise e) => (out, Raise e)
  | (out, OutOfFuel) => (out, OutOfFuel)
  end.

Definition pr_lift {A} (r : result A) : Pr A := ([], r).

Definition print (l : line) : Pr unit := ([l], Ok tt).

Declare Scope pr_scope.
Delimit Scope pr_scope with pr.
Notation "'do' x <- m ; k" := (pr_bind m (fun x => k))
  (at level 10, x name, m at level 100, k at level 200) : pr_scope.

(** ** [classify_and_print] (source lines 91-127) *)

Definition hex_digit (d : Z) : ascii :=
  match String.get (Z.to_nat d) "0123456789ABCDEF" with
  | Some c => c
  | None => "?"%char
  end.

Fixpoint hex_digits (fuel : nat) (n : Z) (acc : string) : string :=
  let acc' := String (hex_digit (n mod 16)) acc in
  match fuel with
  | O => acc'
  | S fuel' => if n / 16 =? 0 then acc' else hex_digits fuel' (n / 16) acc'
  end.

(** [f"{n:X}"] *)
Definition format_X (n : Z) : string :=
  if n <? 0 then String "-" (hex_digits (Z.to_nat (Z.log2 (- n))) (- n) "")
  else hex_digits (Z.to_nat (Z.log2 n)) n "".

(** [all([atime, mtime, ctime])] *)
Definition has_times_of (r : inode_rec) : bool :=
  negb (atime r =? 0) && negb (mtime r =? 0) && negb (ctime r =? 0).

(** Lines 100-110: the label of the record [r] met at index [i] of
    [inodes].  [and] and [or] short-circuit as in the source. *)
Definition file_type_of (inodes : list inode_rec) (i : Z) (r : inode_rec)
  : result string :=
  let has_times := has_times_of r in
  if inode r =? 128 then Ok "Root Directory"%string
  else if type_code r =? 0 then
    (do prev_known <-
       (if 0 <? i then
          do p <- py_getitem inodes (i - 1) ;
          Ok (dict_mem FILE_TYPES (type_code p))
        else Ok false) ;
     do next_known <-
       (if i + 1 <? len inodes then
          do n <- py_getitem inodes (i + 1) ;
          Ok (dict_mem FILE_TYPES (type_code n))
        else Ok false) ;
     if (prev_known || next_known) && has_times
     then Ok "Probably Deleted File"%string
     else Ok "Unknown (0x0)"%string)%res
  else
    Ok (match dict_get FILE_TYPES (type_code r) with
        | Some name => name
        | None => ("Unknown (0x" ++ format_X (type_code r) ++ ")")%string
        end).

(** The body of the [for] loop; returns whether the record was counted. *)
Definition classify_entry (inodes : list inode_rec) (name_map : gmap Z string)
    (only_allocated only_deleted : bool) (i : Z) (r : inode_rec) : Pr bool :=
  let has_times := has_times_of r in
  (do file_type <- pr_lift (file_type_of inodes i r) ;
   if only_allocated && ((type_code r =? 0) || negb has_times) then pr_ret false
   else if only_deleted && negb (String.eqb file_type "Probably Deleted File")
   then pr_ret false
   else
     let name := if inode r =? 128 then "."%string
                 else default "(unknown)"%string (name_map !! inode r) in
     do _ <- print (LInode (inode r) file_type name) ;
     do _ <- (if has_times then print (LTimes (atime r) (mtime r) (ctime r))
              else pr_ret tt) ;
     pr_ret true)%pr.

Fixpoint classify_loop (inodes : list inode_rec) (name_map : gmap Z string)
    (only_allocated only_deleted : bool)
    (i : Z) (rest : list inode_rec) (total : Z) : Pr Z :=
  match rest with
  | [] => pr_ret total
  | r :: rest' =>
      (do counted <- classify_entry inodes name_map only_allocated only_deleted i r ;
       classify_loop inodes name_map only_allocated only_deleted
         (i + 1) rest' (if counted : bool then total + 1 else total))%pr
  end.

Definition classify_and_print (inodes : list inode_rec) (name_map : gmap Z string)
    (only_allocated only_deleted : bool) : Pr unit :=
  (do total <- classify_loop inodes name_map only_allocated only_deleted 0 inodes 0 ;
   print (LTotal total))%pr.

(** ** Short-form directory inodes (source lines 130-160) *)

Record shortform_rec : Type := mkShortform {
  sf_inode_number : Z;
  sf_offset : Z;
  sf_entry_count : Z
}.

Definition parse_shortform_inode (data : list byte) (offset : Z)
  : result (option shortform_rec) :=
  let inode := py_slice data offset (offset + 256) in
  if (len inode <? 256) || negb (bytes_eqb (py_slice inode 0 2) INODE_MAGIC)
  then Ok None
  else
    (do num_entries <- py_getitem inode 176 ;
     if byte_val num_entries =? 0 then Ok None
     else
       let inode_number := int_from_bytes_big (py_slice inode 152 160) in
       Ok (Some (mkShortform inode_number offset (byte_val num_entries))))%res.

(** The body of the [while] loop at the cursor [offset]: the new cursor
    and the new value of [found]. *)
Definition shortform_body (data : list byte) (offset found : Z) : Pr (Z * Z) :=
  if bytes_eqb (py_slice data offset (offset + 2)) INODE_MAGIC then
    (do result <- pr_lift (parse_shortform_inode data offset) ;
     do found' <-
       match result with
       | Some r =>
           do _ <- print (LShortform (sf_inode_number r) (sf_offset r) (sf_entry_count r)) ;
           pr_ret (found + 1)
       | None => pr_ret found
       end ;
     pr_ret (offset + 256, found'))%pr
  else pr_ret (offset + 16, found).

Fixpoint shortform_loop (fuel : nat) (data : list byte) (offset found : Z) : Pr Z :=
  match fuel with
  | O => ([], OutOfFuel)
  | S fuel' =>
      if offset <? len data - 256 then
        (do st <- shortform_body data offset found ;
         shortform_loop fuel' data (fst st) (snd st))%pr
      else pr_ret found
  end.

(** Every iteration moves the cursor by at least 16 bytes. *)
Definition shortform_fuel (data : list byte) : nat := Z.to_nat (len data / 16) + 2.

Definition scan_shortform_inodes (data : list byte) : Pr unit :=
  (do _ <- print LScanning ;
   do found <- shortform_loop (shortform_fuel data) data 0 0 ;
   if found =? 0 then print LNoneFound else pr_ret tt)%pr.

(** ** [str] methods used by [parse_xfs_ncheck]

    A [string] holds the code points below 256 of a Python [str]. *)

(** [c.isspace()] *)
Definition is_space (c : ascii) : bool :=
  let n := Z.of_nat (nat_of_ascii c) in
  ((9 <=? n) && (n <=? 13)) || ((28 <=? n) && (n <=? 32))
  || (n =? 133) || (n =? 160).

Fixpoint py_lstrip (s : string) : string :=
  match s with
  | String c s' => if is_space c then py_lstrip s' else s
  | EmptyString => EmptyString
  end.

Fixpoint py_rstrip (s : string) : string :=
  match s with
  | String c s' =>
      match py_rstrip s' with
      | EmptyString => if is_space c then EmptyString else String c EmptyString
      | t => String c t
      end
  | EmptyString => EmptyString
  end.

(** [s.strip()] *)
Definition py_strip (s : string) : string := py_rstrip (py_lstrip s).

(** [s.split(sep)] for a one-character separator: at least one piece. *)
Fixpoint py_split_char (sep : ascii) (s : string) : list string :=
  match s with
  | EmptyString => [EmptyString]
  | String c s' =>
      if Ascii.eqb c sep then EmptyString :: py_split_char sep s'
      else match py_split_char sep s' with
           | piece :: pieces => String c piece :: pieces
           | [] => [String c EmptyString]
           end
  end.

(** The longest prefix without white space, and what follows it. *)
Fixpoint break_space (s : string) : string * string :=
  match s with
  | EmptyString => (EmptyString, EmptyString)
  | String c s' =>
      if is_space c then (EmptyString, s)
      else let '(tok, rest) := break_space s' in (String c tok, rest)
  end.

(** [s.split(None, 1)]: the first word, then the remainder with its leading
    white space removed, when there is one. *)
Definition py_split_ws1 (s : string) : list string :=
  match py_lstrip s with
  | EmptyString => []
  | s1 =>
      let '(tok, rest) := break_space s1 in
      match py_lstrip rest with
      | EmptyString => [tok]
      | rest' => [tok; rest']
      end
  end.

Definition digit_val (c : ascii) : option Z :=
  let n := Z.of_nat (nat_of_ascii c) in
  if (48 <=? n) && (n <=? 57) then Some (n - 48) else None.

(** Digits with single underscores between them; [after_digit] tells
    whether the previous character was a digit. *)
Fixpoint int_digits (s : string) (acc : Z) (after_digit : bool) : option Z :=
  match s with
  | EmptyString => if after_digit then Some acc else None
  | String c s' =>
      match digit_val c with
      | Some d => int_digits s' (acc * 10 + d) true
      | None =>
          if Ascii.eqb c "_" && after_digit then
            match s' with
            | String c' _ =>
                match digit_val c' with
                | Some _ => int_digits s' acc false
                | None => None
                end
            | EmptyString => None
            end
          else None
      end
  end.

(** The default of [sys.int_max_str_digits], which the script does not
    change: [int] refuses a decimal literal with more digits. *)
Definition INT_MAX_STR_DIGITS : Z := 4300.

(** The number of digits of a literal; underscores and the sign do not
    count, leading zeros do. *)
Fixpoint digit_count (s : string) : Z :=
  match s with
  | EmptyString => 0
  | String c s' =>
      (match digit_val c with Some _ => 1 | None => 0 end) + digit_count s'
  end.

(** [int(s)] on a decimal literal: surrounding white space, an optional
    sign, digits, at most [INT_MAX_STR_DIGITS] of them.  Anything else
    raises [ValueError]. *)
Definition py_int (s : string) : result Z :=
  let t := py_strip s in
  let r := match t with
           | String "-" t' => option_map Z.opp (int_digits t' 0 false)
           | String "+" t' => int_digits t' 0 false
           | _ => int_digits t 0 false
           end in
  match r with
  | Some n =>
      if INT_MAX_STR_DIGITS <? digit_count t then Raise (ValueError s)
      else Ok n
  | None => Raise (ValueError s)
  end.

(** ** [parse_xfs_ncheck] (source lines 77-89) *)

(** The [for] loop of lines 81-86.  [name_map] is updated in place, so the
    entries stored before an exception are still in it afterwards. *)
Fixpoint ncheck_lines (lines : list string) (name_map : gmap Z string)
  : gmap Z string * result unit :=
  match lines with
  | [] => (name_map, Ok tt)
  | line :: lines' =>
      match py_split_ws1 (py_strip line) with
      | [p0; p1] =>
          match py_int p0 with
          | Ok inode => ncheck_lines lines' (<[inode := py_strip p1]> name_map)
          | Raise e => (name_map, Raise e)
          | OutOfFuel => (name_map, OutOfFuel)
          end
      | _ => ncheck_lines lines' name_map
      end
  end.

(** An outcome of the environment: an exception or a value. *)
Definition of_sum {A} (r : exn + A) : result A :=
  match r with
  | inl e => Raise e
  | inr a => Ok a
  end.

Section Collaborators.

(** [subprocess.check_output(['xfs_ncheck', path], ...).decode()]: the
    decoded text, or the exception of a missing utility, a non-zero exit
    or undecodable output. *)
Variable xfs_ncheck : string -> exn + string.

(** [open(path, 'rb')] *)
Variable open_rb : string -> exn + file.

Definition parse_xfs_ncheck (image_path : string) : Pr (gmap Z string) :=
  let name_map : gmap Z string := ∅ in
  let '(name_map, r) :=
    match xfs_ncheck image_path with
    | inr output =>
        ncheck_lines (py_split_char "010" (py_strip output)) name_map
    | inl e => (name_map, Raise e)
    end in
  match r with
  | Ok _ => ([], Ok name_map)
  | Raise e => ([LWarning e], Ok name_map)     (* except Exception as e *)
  | OutOfFuel => ([], OutOfFuel)
  end.

(** ** [main] (source lines 162-190) *)

(** Runs a file computation on the handle [f]. *)
Definition on_file {A} (m : IO A) (f : file) : Pr (A * file) := ([], m f).

Definition main_body (image_path : string)
    (only_allocated only_deleted shortform : bool) : Pr unit :=
  (do f <- pr_lift (of_sum (open_rb image_path)) ;
   do _ <- print (LChecking image_path) ;
   do d <- on_file detect_xfs_magic f ;
   if negb (fst d) then print LNotXFS
   else
     do _ <- print LDetected ;
     let f := snd d in
     if shortform then
       do s <- on_file (f_seek 0) f ;
       do data <- on_file f_read_all (snd s) ;
       scan_shortform_inodes (fst data)
     else
       do e <- on_file f_seek_end f ;
       do filesize <- on_file f_tell (snd e) ;
       do s <- on_file (f_seek 0) (snd filesize) ;
       do inodes <- on_file (scan_and_classify_inodes (fst filesize)) (snd s) ;
       match fst inodes with
       | [] => print LNoInodes
       | _ =>
           do name_map <- parse_xfs_ncheck image_path ;
           classify_and_print (fst inodes) name_map only_allocated only_deleted
       end)%pr.

(** [except Exception as e: print(f"Error: {e}")], after which [main]
    returns normally. *)
Definition main (image_path : string)
    (only_allocated only_deleted shortform : bool) : Pr unit :=
  match main_body image_path only_allocated only_deleted shortform with
  | (out, Ok _) => (out, Ok tt)
  | (out, Raise e) => (out ++ [LError e], Ok tt)
  | (out, OutOfFuel) => (out, OutOfFuel)
  end.

(** ** The script after [parse_args] (source lines 200-209)

    The arguments are the values that [parser.parse_args()] returned; a
    command line that [argparse] refuses, or a request for help, ends the
    process inside [parse_args] (lines 193-198) and has no counterpart
    here.  The result is the exit status of the process: [sys.exit(1)] for
    conflicting flags, 0 when [main] returns. *)
Definition script (image_path : string) (allocated deleted shortform : bool)
  : Pr Z :=
  if 1 <? Z.b2z allocated + Z.b2z deleted + Z.b2z shortform then
    (do _ <- print LUsage ; pr_ret 1)%pr
  else
    (do _ <- main image_path allocated deleted shortform ; pr_ret 0)%pr.

End Collaborators.

(** ** Vocabulary of the statements *)

(** The type codes of [FILE_TYPES]. *)
Definition known_type (c : Z) : Prop := In c [0x1; 0x2; 0x4; 0x6; 0x8; 0xA; 0xC].

(** The record at index [j] exists and its type code is in the table. *)
Definition known_at (inodes : list inode_rec) (j : nat) : Prop :=
  exists p, inodes !! j = Some p /\ known_type (type_code p).

Definition raises {A} (r : result A) : Prop := exists e, r = Raise e.

(** What [f.read(INODE_SIZE)] returns after [f.seek(offset)]. *)
Definition window (data : list byte) (offset : Z) : list byte :=
  take (Z.to_nat INODE_SIZE) (drop (Z.to_nat offset) data).

(** The records (none or one) that the window at [offset] contributes. *)
Definition window_record (data : list byte) (offset : Z) : list inode_rec :=
  let block := window data offset in
  if len block <? 4 then []
  else if bytes_eqb (py_slice block 0 2) INODE_MAGIC then
    match block !! 2%nat with
    | Some mode_byte => [make_inode offset mode_byte block]
    | None => []
    end
  else [].

(** The records of [n] consecutive windows, the first one at [offset]. *)
Fixpoint window_records (data : list byte) (n : nat) (offset : Z) : list inode_rec :=
  match n with
  | O => []
  | S n' => window_record data offset ++ window_records data n' (offset + INODE_SIZE)
  end.

(** The number of 512-byte strides that start below [filesize]. *)
Definition window_count (filesize : Z) : nat :=
  Z.to_nat ((filesize + (INODE_SIZE - 1)) / INODE_SIZE).

(** [r] is the record of the window at the stride [o]. *)
Definition record_at (data : list byte) (o : Z) (r : inode_rec) : Prop :=
  0 <= o /\ o mod INODE_SIZE = 0
  /\ window_record data o = [r] /\ inode r = o / INODE_SIZE.

(** ** Vocabulary of the short-form scan *)

(** The cursor after the iteration at [offset]. *)
Definition shortform_next (data : list byte) (offset : Z) : Z :=
  if bytes_eqb (py_slice data offset (offset + 2)) INODE_MAGIC
  then offset + 256 else offset + 16.

(** What the iteration at [offset] prints. *)
Definition window_report (data : list byte) (offset : Z) : list line :=
  if bytes_eqb (py_slice data offset (offset + 2)) INODE_MAGIC then
    match parse_shortform_inode data offset with
    | Ok (Some r) => [LShortform (sf_inode_number r) (sf_offset r) (sf_entry_count r)]
    | _ => []
    end
  else [].

(** The cursors that the loop visits when it starts at [o]. *)
Inductive reaches_from (data : list byte) (o : Z) : Z -> Prop :=
| reaches_here : reaches_from data o o
| reaches_step (X : Z) :
    o < len data - 256 ->
    reaches_from data (shortform_next data o) X ->
    reaches_from data o X.

Definition cursor_reaches (data : list byte) (X : Z) : Prop := reaches_from data 0 X.

(** The physical offset of a reported record. *)
Definition report_offset (l : line) : option Z :=
  match l with
  | LShortform _ o _ => Some o
  | _ => None
  end.

(** How many records with physical offset [X] the output reports. *)
Fixpoint count_reports_at (X : Z) (out : list line) : nat :=
  match out with
  | [] => O
  | l :: out' =>
      match report_offset l with
      | Some o => if o =? X then S (count_reports_at X out') else count_reports_at X out'
      | None => count_reports_at X out'
      end
  end.

(** A printing computation settles when it returns or raises, that is,
    when the fuel of the loops inside it was enough. *)
Definition settles {A} (m : Pr A) : Prop := snd m <> OutOfFuel.

(** ** Example images and outputs *)

Definition zeros (n : nat) : list byte := repeat x00 n.

(** [XFSB], padding to 512, then a window with type nibble 8 and the
    timestamps 1, 2, 3, padded to 1024 bytes. *)
Definition image_one_file : list byte :=
  XFS_SUPERBLOCK_MAGIC ++ zeros 508
  ++ INODE_MAGIC ++ [x80] ++ zeros 29
  ++ [x00; x00; x00; x01] ++ zeros 4
  ++ [x00; x00; x00; x02] ++ zeros 4
  ++ [x00; x00; x00; x03] ++ zeros 460.

(** A 40-byte image: [IN], type nibble 8, atime 5 at bytes 32-35, and
    nothing where mtime and ctime would be. *)
Definition image_truncated : list byte :=
  INODE_MAGIC ++ [x80] ++ zeros 29 ++ [x00; x00; x00; x05] ++ zeros 4.

(** A 256-byte buffer that is one short-form window: [IN], inode number
    0, entry count 1. *)
Definition buffer_last_window : list byte :=
  INODE_MAGIC ++ zeros 174 ++ [x01] ++ zeros 79.

(** [IN] with entry count 0 at offset 0, and at offset 16 a window with
    entry count 5. *)
Definition buffer_shadowed_window : list byte :=
  INODE_MAGIC ++ zeros 14 ++ INODE_MAGIC ++ zeros 174 ++ [x05] ++ zeros 400.

(** Two lines, the second with a malformed inode number. *)
Definition ncheck_second_line_bad (_ : string) : exn + string :=
  inr "5 /a
xx /b"%string.

Definition open_missing (_ : string) : exn + file :=
  inl (OSError "No such file or directory").

Definition ncheck_missing (_ : string) : exn + string := inl FileNotFoundError.

(** ** Vocabulary of the further properties *)

(** The three timestamp fields of a block, decoded big-endian. *)
Definition timestamp_fields (block : list byte) : Z * Z * Z :=
  (int_from_bytes_big (py_slice block 32 36),
   int_from_bytes_big (py_slice block 40 44),
   int_from_bytes_big (py_slice block 48 52)).

(** The fields of a record are in the ranges of their encodings. *)
Definition well_formed_record (filesize : Z) (r : inode_rec) : Prop :=
  0 <= inode r /\ INODE_SIZE * inode r < filesize
  /\ 0 <= type_code r <= 15
  /\ 0 <= atime r < 2 ^ 32 /\ 0 <= mtime r < 2 ^ 32 /\ 0 <= ctime r < 2 ^ 32.

(** How many [LInode] lines an output has. *)
Fixpoint count_inode_lines (out : list line) : Z :=
  match out with
  | [] => 0
  | LInode _ _ _ :: out' => 1 + count_inode_lines out'
  | _ :: out' => count_inode_lines out'
  end.

(** The inode numbers of the [LInode] lines of an output, in order. *)
Fixpoint reported_numbers (out : list line) : list Z :=
  match out with
  | [] => []
  | LInode n _ _ :: out' => n :: reported_numbers out'
  | _ :: out' => reported_numbers out'
  end.

(** What the iterations of the classifier loop print for the records
    [rest], the first of which is at index [i]. *)
Fixpoint report_lines (inodes : list inode_rec) (name_map : gmap Z string)
    (only_allocated only_deleted : bool) (i : Z) (rest : list inode_rec)
  : list line :=
  match rest with
  | [] => []
  | r :: rest' =>
      fst (classify_entry inodes name_map only_allocated only_deleted i r)
      ++ report_lines inodes name_map only_allocated only_deleted (i + 1) rest'
  end.

(** A line of the report: an inode line, or the times of a record whose
    three timestamps are nonzero. *)
Definition report_line (l : line) : Prop :=
  (exists n ft nm, l = LInode n ft nm)
  \/ (exists a m c, l = LTimes a m c /\ a <> 0 /\ m <> 0 /\ c <> 0).

(** The name printed for the inode number [n]. *)
Definition name_of (name_map : gmap Z string) (n : Z) : string :=
  if n =? 128 then "."%string else default "(unknown)"%string (name_map !! n).

(** The labels of the nonzero type codes of a nibble. *)
Definition nibble_label (tc : Z) : string :=
  match tc with
  | 1 => "FIFO"
  | 2 => "Character Device"
  | 3 => "Unknown (0x3)"
  | 4 => "Directory"
  | 5 => "Unknown (0x5)"
  | 6 => "Block Device"
  | 7 => "Unknown (0x7)"
  | 8 => "Regular File"
  | 9 => "Unknown (0x9)"
  | 10 => "Symlink"
  | 11 => "Unknown (0xB)"
  | 12 => "Socket"
  | 13 => "Unknown (0xD)"
  | 14 => "Unknown (0xE)"
  | _ => "Unknown (0xF)"
  end%string.

(** The physical offsets of the records that an output reports, in
    order. *)
Definition reported_offsets (out : list line) : list Z := omap report_offset out.

(** [buffer_last_window] followed by one more byte: the window at offset
    0 is now below the bound of the loop. *)
Definition buffer_one_window : list byte := buffer_last_window ++ [x00].

(** The entry that a line of the resolver's output stands for: the line
    has two fields and the first is an inode number. *)
Definition line_entry (line : string) : option (Z * string) :=
  match py_split_ws1 (py_strip line) with
  | [p0; p1] =>
      match py_int p0 with
      | Ok n => Some (n, py_strip p1)
      | _ => None
      end
  | _ => None
  end.

(** A line that the loop accepts: it has not two fields, or its first
    field is an inode number. *)
Definition line_accepted (line : string) : Prop :=
  forall p0 p1, py_split_ws1 (py_strip line) = [p0; p1] ->
                exists n, py_int p0 = Ok n.

(** The name on the last of the [lines] that is an entry for the inode
    number [k]. *)
Fixpoint last_entry (lines : list string) (k : Z) : option string :=
  match lines with
  | [] => None
  | line :: lines' =>
      match last_entry lines' k with
      | Some name => Some name
      | None =>
          match line_entry line with
          | Some (n, name) => if n =? k then Some name else None
          | None => None
          end
      end
  end.

(** Three lines: two entries for inode 5 around a blank line. *)
Definition ncheck_repeated_inode (_ : string) : exn + string :=
  inr "5 /old

   5    /new name  "%string.

(** The [LInode] lines of an output, in order. *)
Fixpoint inode_lines (out : list line) : list line :=
  match out with
  | [] => []
  | LInode n ft nm :: out' => LInode n ft nm :: inode_lines out'
  | _ :: out' => inode_lines out'
  end.

(** What the deleted-only report prints for a record: its inode line and
    its times (the three [print] statements of lines 122-124). *)
Definition deleted_entry (name_map : gmap Z string) (r : inode_rec) : list line :=
  [LInode (inode r) "Probably Deleted File" (name_of name_map (inode r));
   LTimes (atime r) (mtime r) (ctime r)].

(** [n] times the character [c]. *)
Fixpoint repeat_char (c : ascii) (n : nat) : string :=
  match n with
  | O => EmptyString
  | S n' => String c (repeat_char c n')
  end.

(** One line whose inode number has 4301 digits. *)
Definition ncheck_huge_number (_ : string) : exn + string :=
  inr (repeat_char "1" 4301 ++ " /big")%string.

(** * Properties *)

(** ** Slices and subscripts *)

Lemma len_nonneg {A} (l : list A) : 0 <= len l.
Proof. unfold len. lia. Qed.

Lemma len_take {A} (n : nat) (l : list A) :
  len (take n l) = Z.min (Z.of_nat n) (len l).
Proof. unfold len. rewrite length_take. lia. Qed.

Lemma len_drop {A} (n : nat) (l : list A) :
  len (drop n l) = Z.max 0 (len l - Z.of_nat n).
Proof. unfold len. rewrite length_drop. lia. Qed.

Lemma len_app {A} (l k : list A) : len (l ++ k) = len l + len k.
Proof. unfold len. rewrite length_app. lia. Qed.

(** For bounds in order and not negative a slice is [take] after [drop]. *)
Lemma py_slice_take_drop {A} (l : list A) (lo hi : Z) :
  0 <= lo <= hi ->
  py_slice l lo hi = take (Z.to_nat (hi - lo)) (drop (Z.to_nat lo) l).
Proof.
  intros Hb. unfold py_slice, norm_index.
  pose proof (len_nonneg l) as Hl. unfold len in *.
  destruct (Z.ltb_spec lo 0); [lia|].
  destruct (Z.ltb_spec hi 0); [lia|].
  destruct (Z.le_gt_cases lo (Z.of_nat (length l))) as [Hlo|Hlo].
  - rewrite (Z.min_l lo) by lia.
    destruct (Z.le_gt_cases hi (Z.of_nat (length l))) as [Hhi|Hhi].
    + rewrite Z.min_l by lia. reflexivity.
    + rewrite Z.min_r by lia.
      rewrite !take_ge; [reflexivity|rewrite length_drop; lia..].
  - rewrite !Z.min_r by lia.
    rewrite Z.sub_diag. simpl. rewrite take_0.
    rewrite drop_ge by lia. rewrite take_nil. reflexivity.
Qed.

Lemma len_py_slice {A} (l : list A) (lo hi : Z) :
  0 <= lo <= hi ->
  len (py_slice l lo hi) = Z.max 0 (Z.min (hi - lo) (len l - lo)).
Proof.
  intros Hb. rewrite py_slice_take_drop by assumption.
  rewrite len_take, len_drop. lia.
Qed.

Lemma py_getitem_lookup {A} (l : list A) (i : Z) :
  0 <= i < len l ->
  exists x, l !! Z.to_nat i = Some x /\ py_getitem l i = Ok x.
Proof.
  intros Hi. unfold py_getitem.
  destruct (Z.ltb_spec i 0); [lia|].
  destruct (Z.leb_spec 0 i); [|lia].
  destruct (Z.ltb_spec i (len l)); [|lia]. simpl.
  destruct (l !! Z.to_nat i) as [x|] eqn:Hx.
  - exists x. split; reflexivity.
  - apply lookup_ge_None in Hx. unfold len in *. lia.
Qed.

Lemma bytes_eqb_eq (a b : list byte) : bytes_eqb a b = true <-> a = b.
Proof. unfold bytes_eqb. apply bool_decide_eq_true. Qed.

Lemma bytes_eqb_neq (a b : list byte) : bytes_eqb a b = false <-> a <> b.
Proof. unfold bytes_eqb. apply bool_decide_eq_false. Qed.

(** ** The superblock detector *)

(** C4: on a readable image [detect_xfs_magic] returns normally, and the
    boolean it returns is true exactly when the first four bytes of the
    image are [XFSB]; in particular it is false, and nothing is raised,
    for an image of fewer than four bytes. *)
Theorem detect_xfs_magic_iff_XFSB (f : file) :
  fault f = None ->
  exists b f',
    detect_xfs_magic f = Ok (b, f')
    /\ (b = true <-> take 4 (content f) = XFS_SUPERBLOCK_MAGIC)
    /\ (len (content f) < 4 -> b = false).
Proof.
  intros Hf.
  unfold detect_xfs_magic, io_bind, f_seek, f_read, io_ret.
  cbn [XFS_SUPERBLOCK_OFFSET Z.ltb Z.compare content position fault].
  rewrite Hf.
  change (Z.to_nat 4) with 4%nat. change (Z.to_nat 0) with 0%nat.
  rewrite drop_0.
  eexists _, _. split; [reflexivity|]. split.
  - apply bytes_eqb_eq.
  - intros Hshort. apply bytes_eqb_neq. intros Heq.
    assert (length (take 4 (content f)) = 4%nat) as Hlen
      by (rewrite Heq; reflexivity).
    rewrite length_take in Hlen. unfold len in Hshort. lia.
Qed.

Lemma detect_xfs_magic_iff_XFSB_witness :
  exists b f',
    detect_xfs_magic (mkFile [x58; x46; x53; x42; x00] 3 None) = Ok (b, f')
    /\ (b = true <-> take 4 [x58; x46; x53; x42; x00] = XFS_SUPERBLOCK_MAGIC)
    /\ (len [x58; x46; x53; x42; x00] < 4 -> b = false).
Proof.
  apply (detect_xfs_magic_iff_XFSB (mkFile [x58; x46; x53; x42; x00] 3 None)).
  reflexivity.
Defined.

(** ** The classifier *)

Lemma dict_mem_FILE_TYPES (c : Z) : dict_mem FILE_TYPES c = true <-> known_type c.
Proof.
  unfold dict_mem, FILE_TYPES, known_type. cbn [dict_get In].
  repeat match goal with
         | |- context [?k =? c] => destruct (Z.eqb_spec k c)
         end; split; intros H; try reflexivity; try discriminate; try tauto; lia.
Qed.

Lemma has_times_of_true (r : inode_rec) :
  has_times_of r = true <-> atime r <> 0 /\ mtime r <> 0 /\ ctime r <> 0.
Proof.
  unfold has_times_of.
  destruct (Z.eqb_spec (atime r) 0), (Z.eqb_spec (mtime r) 0),
    (Z.eqb_spec (ctime r) 0); simpl; split; intros H;
    try discriminate; try reflexivity; tauto.
Qed.

Lemma neighbour_known (inodes : list inode_rec) (j : nat) :
  (j < length inodes)%nat ->
  exists b, (do p <- py_getitem inodes (Z.of_nat j) ;
             Ok (dict_mem FILE_TYPES (type_code p)))%res = Ok b
            /\ (b = true <-> known_at inodes j).
Proof.
  intros Hj.
  destruct (py_getitem_lookup inodes (Z.of_nat j)) as (p & Hp & Hget).
  { unfold len. lia. }
  rewrite Nat2Z.id in Hp. rewrite Hget. simpl.
  eexists. split; [reflexivity|].
  rewrite dict_mem_FILE_TYPES. unfold known_at. split.
  - intros Hk. exists p. auto.
  - intros (q & Hq & Hk). congruence.
Qed.


(** The label rule of lines 102-108, for a record [r] that stands at
    index [i] of the sequence, is not inode 128 and has type code 0:
    [Probably Deleted File] if and only if its three timestamps are
    nonzero and the record before it or the record after it (where there
    is one) has a type code of the table; otherwise [Unknown (0x0)]. *)
Lemma deleted_iff_times_and_known_neighbour
    (inodes : list inode_rec) (i : nat) (r : inode_rec) :
  inodes !! i = Some r ->
  inode r <> 128 ->
  type_code r = 0 ->
  let deleted :=
    (atime r <> 0 /\ mtime r <> 0 /\ ctime r <> 0)
    /\ ((0 < i)%nat /\ known_at inodes (i - 1) \/ known_at inodes (i + 1)) in
  (file_type_of inodes (Z.of_nat i) r = Ok "Probably Deleted File"%string
   <-> deleted)
  /\ (file_type_of inodes (Z.of_nat i) r = Ok "Unknown (0x0)"%string
      <-> ~ deleted).
Proof.
  intros Hr H128 Htc deleted. subst deleted.
  pose proof (lookup_lt_Some _ _ _ Hr) as Hi.
  unfold file_type_of.
  destruct (Z.eqb_spec (inode r) 128); [contradiction|].
  rewrite Htc. simpl (0 =? 0). cbv iota.
  (* the record before *)
  assert (exists pb, (if 0 <? Z.of_nat i
                      then (do p <- py_getitem inodes (Z.of_nat i - 1) ;
                            Ok (dict_mem FILE_TYPES (type_code p)))%res
                      else Ok false) = Ok pb
                     /\ (pb = true <-> (0 < i)%nat /\ known_at inodes (i - 1)))
    as (pb & -> & Hpb).
  { destruct (Z.ltb_spec 0 (Z.of_nat i)) as [Hpos|Hzero].
    - destruct (neighbour_known inodes (i - 1)) as (b & Hb & Hbk); [lia|].
      replace (Z.of_nat (i - 1)) with (Z.of_nat i - 1) in Hb by lia.
      exists b. split; [exact Hb|]. rewrite Hbk. split; [|tauto].
      intros Hk. split; [lia|exact Hk].
    - exists false. split; [reflexivity|]. split; [discriminate|].
      intros [Hpos _]. lia. }
  (* the record after *)
  assert (exists nb, (if Z.of_nat i + 1 <? len inodes
                      then (do n <- py_getitem inodes (Z.of_nat i + 1) ;
                            Ok (dict_mem FILE_TYPES (type_code n)))%res
                      else Ok false) = Ok nb
                     /\ (nb = true <-> known_at inodes (i + 1)))
    as (nb & -> & Hnb).
  { destruct (Z.ltb_spec (Z.of_nat i + 1) (len inodes)) as [Hin|Hout].
    - destruct (neighbour_known inodes (i + 1)) as (b & Hb & Hbk).
      { unfold len in Hin. lia. }
      replace (Z.of_nat (i + 1)) with (Z.of_nat i + 1) in Hb by lia.
      exists b. split; [exact Hb|exact Hbk].
    - exists false. split; [reflexivity|]. split; [discriminate|].
      intros (p & Hp & _). apply lookup_lt_Some in Hp.
      unfold len in Hout. lia. }
  simpl.
  pose proof (has_times_of_true r) as Ht.
  destruct (has_times_of r), pb, nb; simpl;
    (split; split; intros H;
     [ try discriminate; intuition congruence
     | try reflexivity; exfalso; intuition discriminate
     | try discriminate; try (intros ?; intuition discriminate);
       exfalso; intuition congruence
     | try reflexivity; exfalso; apply H; intuition congruence ]).
Qed.


(** ** Timestamps *)

Lemma unpack_I_cases (bs : list byte) :
  (len bs = 4 /\ unpack_I bs = Ok (int_from_bytes_big bs))
  \/ (len bs <> 4 /\ unpack_I bs = Raise StructError).
Proof.
  unfold unpack_I. destruct (Z.eqb_spec (len bs) 4); [left|right]; auto.
Qed.

(** A field that starts at [lo] is decoded exactly when the block reaches
    [lo + 4]. *)
Lemma unpack_I_field (block : list byte) (lo : Z) :
  0 <= lo ->
  raises (unpack_I (py_slice block lo (lo + 4))) <-> len block < lo + 4.
Proof.
  intros Hlo.
  pose proof (len_py_slice block lo (lo + 4) ltac:(lia)) as Hlen.
  destruct (unpack_I_cases (py_slice block lo (lo + 4))) as [[H4 ->]|[H4 ->]].
  - split; [intros [e He]; discriminate|lia].
  - split; [lia|intros _; eexists; reflexivity].
Qed.

Lemma parse_times_failure (block : list byte) :
  raises (unpack_I (py_slice block 32 36))
  \/ raises (unpack_I (py_slice block 40 44))
  \/ raises (unpack_I (py_slice block 48 52)) ->
  parse_times block = (0, 0, 0).
Proof.
  intros H. unfold parse_times, parse_times_try.
  destruct (unpack_I_cases (py_slice block 32 36)) as [[_ Ha]|[_ Ha]];
    rewrite Ha in *; simpl; [|reflexivity].
  destruct (unpack_I_cases (py_slice block 40 44)) as [[_ Hm]|[_ Hm]];
    rewrite Hm in *; simpl; [|reflexivity].
  destruct (unpack_I_cases (py_slice block 48 52)) as [[_ Hc]|[_ Hc]];
    rewrite Hc in *; simpl; [|reflexivity].
  destruct H as [[e H]|[[e H]|[e H]]]; discriminate.
Qed.

Lemma parse_times_short (block : list byte) :
  len block < 52 -> parse_times block = (0, 0, 0).
Proof.
  intros Hlen. apply parse_times_failure. right. right.
  apply (unpack_I_field block 48); lia.
Qed.

(** ** One iteration of the inode scan *)

Lemma len_window (data : list byte) (offset : Z) :
  0 <= offset ->
  len (window data offset) = Z.min 512 (Z.max 0 (len data - offset)).
Proof.
  intros Ho. unfold window. rewrite len_take, len_drop.
  unfold INODE_SIZE. lia.
Qed.

Lemma window_lookup_2 (block : list byte) :
  4 <= len block ->
  exists mode_byte, block !! 2%nat = Some mode_byte
                    /\ py_getitem block 2 = Ok mode_byte.
Proof.
  intros Hlen.
  destruct (py_getitem_lookup block 2) as (x & Hx & Hget); [lia|].
  exists x. split; assumption.
Qed.

(** On a readable file the loop body reads the window at [offset], stops
    when it has fewer than four bytes, and otherwise appends what the
    window contributes. *)
Lemma scan_body_readable (f : file) (offset : Z) (inodes : list inode_rec) :
  fault f = None ->
  0 <= offset ->
  scan_body offset inodes f
  = Ok (if len (window (content f) offset) <? 4 then None
        else Some (inodes ++ window_record (content f) offset),
        mkFile (content f) (offset + len (window (content f) offset)) None).
Proof.
  intros Hf Ho.
  unfold scan_body, io_bind, f_seek, f_read.
  destruct (Z.ltb_spec offset 0); [lia|].
  cbn [content position fault]. rewrite Hf.
  fold (window (content f) offset).
  unfold window_record.
  destruct (Z.ltb_spec (len (window (content f) offset)) 4) as [Hs|Hl].
  - reflexivity.
  - destruct (bytes_eqb (py_slice (window (content f) offset) 0 2) INODE_MAGIC).
    + destruct (window_lookup_2 (window (content f) offset)) as (m & Hm & Hget);
        [lia|].
      rewrite Hget, Hm. reflexivity.
    + rewrite app_nil_r. reflexivity.
Qed.

(** Past the end of the image no window contributes anything. *)
Lemma window_records_past_end (data : list byte) (n : nat) (offset : Z) :
  0 <= offset -> len data <= offset -> window_records data n offset = [].
Proof.
  revert offset. induction n as [|n IH]; intros offset Ho Hend; [reflexivity|].
  simpl. rewrite IH by (unfold INODE_SIZE; lia).
  unfold window_record.
  pose proof (len_window data offset Ho) as Hw.
  destruct (Z.ltb_spec (len (window data offset)) 4); [reflexivity|lia].
Qed.

Lemma window_records_snoc (data : list byte) (n : nat) (offset : Z) :
  window_records data (S n) offset
  = window_records data n offset
    ++ window_record data (offset + INODE_SIZE * Z.of_nat n).
Proof.
  revert offset. induction n as [|n IH]; intros offset.
  - simpl. rewrite app_nil_r. f_equal. lia.
  - change (window_records data (S (S n)) offset)
      with (window_record data offset
            ++ window_records data (S n) (offset + INODE_SIZE)).
    rewrite IH. simpl. rewrite <- app_assoc. do 3 f_equal. lia.
Qed.

(** The loop computes the records of the windows that start below
    [filesize], given fuel for one test more than there are windows. *)
Lemma scan_loop_exact (filesize : Z) (n : nat) :
  forall (fuel : nat) (offset : Z) (inodes : list inode_rec) (f : file),
    fault f = None ->
    0 <= offset ->
    Z.to_nat ((filesize - offset + 511) / 512) = n ->
    (n < fuel)%nat ->
    exists f',
      scan_loop fuel filesize offset inodes f
      = Ok (inodes ++ window_records (content f) n offset, f')
      /\ content f' = content f /\ fault f' = None.
Proof.
  induction n as [|n IH]; intros fuel offset inodes f Hf Ho Hn Hfuel;
    (destruct fuel as [|fuel]; [lia|]); cbn [scan_loop].
  - assert (filesize <= offset) as Hdone.
    { destruct (Z.le_gt_cases filesize offset) as [|Hlt]; [assumption|].
      assert (1 <= (filesize - offset + 511) / 512)
        by (apply Z.div_le_lower_bound; lia).
      lia. }
    destruct (Z.ltb_spec offset filesize); [lia|].
    exists f. unfold io_ret. simpl. rewrite app_nil_r. auto.
  - assert (offset < filesize) as Hmore.
    { destruct (Z.le_gt_cases filesize offset) as [Hle|]; [|lia].
      assert ((filesize - offset + 511) / 512 <= 0).
      { apply Z.lt_succ_r. apply Z.div_lt_upper_bound; lia. }
      lia. }
    destruct (Z.ltb_spec offset filesize); [|lia].
    unfold io_bind at 1. rewrite scan_body_readable by assumption.
    destruct (Z.ltb_spec (len (window (content f) offset)) 4) as [Hs|Hl].
    + (* break: nothing is left of the image *)
      assert (window_records (content f) (S n) offset = []) as ->.
      { cbn [window_records]. unfold window_record.
        destruct (Z.ltb_spec (len (window (content f) offset)) 4); [|lia].
        rewrite window_records_past_end; [reflexivity|unfold INODE_SIZE; lia|].
        rewrite len_window in Hs by assumption. unfold INODE_SIZE. lia. }
      rewrite app_nil_r. unfold io_ret.
      eexists. split; [reflexivity|]. split; reflexivity.
    + edestruct (IH fuel (offset + INODE_SIZE)
                   (inodes ++ window_record (content f) offset)
                   (mkFile (content f)
                      (offset + len (window (content f) offset)) None))
        as (f' & Hrun & Hc & Hflt).
      * reflexivity.
      * unfold INODE_SIZE. lia.
      * unfold INODE_SIZE.
        replace (filesize - (offset + 512) + 511)
          with ((filesize - offset + 511) + (-1) * 512) by lia.
        rewrite Z.div_add by lia. lia.
      * lia.
      * exists f'. cbn [content] in *. rewrite Hrun.
        cbn [window_records]. rewrite <- app_assoc. auto.
Qed.

Lemma scan_fuel_enough (filesize : Z) : (window_count filesize < scan_fuel filesize)%nat.
Proof.
  unfold window_count, scan_fuel, INODE_SIZE.
  destruct (Z.le_gt_cases filesize 0) as [Hneg|Hpos].
  - assert ((filesize + (512 - 1)) / 512 <= 0).
    { apply Z.lt_succ_r. apply Z.div_lt_upper_bound; lia. }
    lia.
  - assert ((filesize + (512 - 1)) / 512 <= filesize / 512 + 1).
    { replace (filesize / 512 + 1) with ((filesize + 1 * 512) / 512)
        by (rewrite Z.div_add by lia; reflexivity).
      apply Z.div_le_mono; lia. }
    assert (0 <= filesize / 512) by (apply Z.div_pos; lia).
    lia.
Qed.

(** On a readable image the scan returns, and it returns the records of
    the windows that start below [filesize]. *)
Lemma scan_and_classify_inodes_readable (filesize : Z) (f : file) :
  fault f = None ->
  exists f',
    scan_and_classify_inodes filesize f
    = Ok (window_records (content f) (window_count filesize) 0, f').
Proof.
  intros Hf. unfold scan_and_classify_inodes.
  destruct (scan_loop_exact filesize (window_count filesize)
              (scan_fuel filesize) 0 [] f Hf ltac:(lia))
    as (f' & Hrun & _).
  - unfold window_count, INODE_SIZE. do 2 f_equal. lia.
  - apply scan_fuel_enough.
  - exists f'. exact Hrun.
Qed.

(** On an image whose reads fail the scan returns only when it reads
    nothing, and then with no record. *)
Lemma scan_and_classify_inodes_unreadable
    (filesize : Z) (f f' : file) (e : exn) (inodes : list inode_rec) :
  fault f = Some e ->
  scan_and_classify_inodes filesize f = Ok (inodes, f') ->
  inodes = [].
Proof.
  intros Hf. unfold scan_and_classify_inodes, scan_fuel.
  rewrite Nat.add_comm. cbn [Nat.add scan_loop].
  destruct (0 <? filesize).
  - unfold io_bind, scan_body, io_bind, f_seek, f_read. simpl.
    rewrite Hf. discriminate.
  - unfold io_ret. congruence.
Qed.

(** ** Where the scanned records come from *)

Lemma make_inode_fields (offset : Z) (mode_byte : byte) (block : list byte) :
  inode (make_inode offset mode_byte block) = offset / INODE_SIZE
  /\ type_code (make_inode offset mode_byte block)
     = parse_file_type (byte_val mode_byte)
  /\ (atime (make_inode offset mode_byte block),
      mtime (make_inode offset mode_byte block),
      ctime (make_inode offset mode_byte block)) = parse_times block.
Proof.
  unfold make_inode. destruct (parse_times block) as [[a m] c]. auto.
Qed.

Lemma window_record_cases (data : list byte) (offset : Z) :
  window_record data offset = []
  \/ exists r, window_record data offset = [r] /\ inode r = offset / INODE_SIZE.
Proof.
  unfold window_record.
  destruct (len (window data offset) <? 4); [left; reflexivity|].
  destruct (bytes_eqb _ _); [|left; reflexivity].
  destruct (window data offset !! 2%nat) as [m|]; [|left; reflexivity].
  right. eexists. split; [reflexivity|]. apply make_inode_fields.
Qed.

Lemma window_records_origin (data : list byte) (n : nat) :
  forall offset : Z,
    0 <= offset ->
    offset mod INODE_SIZE = 0 ->
    exists offsets,
      Forall2 (record_at data) offsets (window_records data n offset)
      /\ Forall (fun o => offset <= o < offset + INODE_SIZE * Z.of_nat n) offsets
      /\ StronglySorted Z.lt offsets.
Proof.
  induction n as [|n IH]; intros offset Ho Hmod.
  - exists []. simpl. repeat split; constructor.
  - destruct (IH (offset + INODE_SIZE)) as (offs & Hrec & Hrange & Hsorted).
    { unfold INODE_SIZE. lia. }
    { unfold INODE_SIZE in *. rewrite <- Z.add_mod_idemp_r by lia.
      rewrite Z.mod_same by lia. rewrite Z.add_0_r. exact Hmod. }
    assert (Forall (fun o => offset <= o < offset + INODE_SIZE * Z.of_nat (S n)) offs)
      as Hrange'.
    { eapply Forall_impl; [exact Hrange|]. unfold INODE_SIZE. simpl. lia. }
    cbn [window_records].
    destruct (window_record_cases data offset) as [->|(r & Hwr & Hr)].
    + exists offs. simpl. auto.
    + rewrite Hwr. exists (offset :: offs). simpl. repeat split.
      * constructor; [|exact Hrec]. unfold record_at. auto.
      * constructor; [unfold INODE_SIZE; lia|exact Hrange'].
      * constructor; [exact Hsorted|].
        eapply Forall_impl; [exact Hrange|]. unfold INODE_SIZE. simpl. lia.
Qed.

Lemma sorted_strides_sorted_numbers (offsets : list Z) :
  Forall (fun o => o mod INODE_SIZE = 0) offsets ->
  StronglySorted Z.lt offsets ->
  StronglySorted Z.lt (map (fun o => o / INODE_SIZE) offsets).
Proof.
  unfold INODE_SIZE.
  induction offsets as [|a l IH]; intros Hmod Hsorted; simpl; [constructor|].
  inversion Hmod as [|? ? Ha Hl]; subst.
  inversion Hsorted as [|? ? Hs Hlt]; subst.
  constructor; [apply IH; assumption|].
  clear IH Hsorted Hs Hmod.
  induction l as [|b l IHl]; simpl; constructor.
  - inversion Hl; subst. inversion Hlt; subst.
    pose proof (Z.div_mod a 512 ltac:(lia)).
    pose proof (Z.div_mod b 512 ltac:(lia)). lia.
  - inversion Hl; subst. inversion Hlt; subst. apply IHl; assumption.
Qed.

Lemma record_at_numbers (data : list byte) (offsets : list Z) (rs : list inode_rec) :
  Forall2 (record_at data) offsets rs ->
  map inode rs = map (fun o => o / INODE_SIZE) offsets
  /\ Forall (fun o => o mod INODE_SIZE = 0) offsets.
Proof.
  induction 1 as [|o r offs rs (Ho & Hmod & Hw & Hi) _ [IHn IHm]]; simpl.
  - split; constructor.
  - split; [congruence|constructor; assumption].
Qed.

(** C5: every record that the inode scan returns is the record of a
    window that starts at a non-negative multiple of 512 below the file
    size, its inode number is that offset divided by 512, and the records
    are returned by strictly ascending offset, hence by strictly ascending
    inode number. *)
Theorem scan_records_on_ascending_strides
    (filesize : Z) (f f' : file) (inodes : list inode_rec) :
  scan_and_classify_inodes filesize f = Ok (inodes, f') ->
  exists offsets : list Z,
    Forall2 (fun o r =>
               0 <= o /\ o mod 512 = 0 /\ o < filesize
               /\ window_record (content f) o = [r]
               /\ inode r = o / 512) offsets inodes
    /\ StronglySorted Z.lt offsets
    /\ StronglySorted Z.lt (map inode inodes).
Proof.
  intros Hrun.
  destruct (fault f) as [e|] eqn:Hf.
  - rewrite (scan_and_classify_inodes_unreadable _ _ _ _ _ Hf Hrun).
    exists []. repeat split; constructor.
  - destruct (scan_and_classify_inodes_readable filesize f Hf) as (f'' & Hexact).
    rewrite Hexact in Hrun. injection Hrun as <- _.
    destruct (window_records_origin (content f) (window_count filesize) 0)
      as (offs & Hrec & Hrange & Hsorted); [lia|reflexivity|].
    destruct (record_at_numbers _ _ _ Hrec) as [Hnum Hmod].
    exists offs. split; [|split; [exact Hsorted|]].
    + assert (forall o, In o offs -> o mod 512 = 0 -> o < filesize) as Hbound.
      { intros o Hin Hom. rewrite List.Forall_forall in Hrange.
        specialize (Hrange o Hin). unfold window_count, INODE_SIZE in Hrange.
        pose proof (Z.div_mod (filesize + (512 - 1)) 512 ltac:(lia)).
        pose proof (Z.mod_pos_bound (filesize + (512 - 1)) 512 ltac:(lia)).
        pose proof (Z.div_mod o 512 ltac:(lia)).
        lia. }
      clear Hnum Hsorted Hrange Hexact Hmod. revert Hbound.
      induction Hrec as [|o r offs rs (Ho & Hom & Hw & Hi) _ IH];
        intros Hbound; constructor.
      * unfold INODE_SIZE in *.
        repeat split; auto. apply Hbound; [left; reflexivity|assumption].
      * apply IH. intros o' Hin. apply Hbound. right. exact Hin.
    + rewrite Hnum. apply sorted_strides_sorted_numbers; assumption.
Qed.

(** ** Windows whose timestamps cannot be decoded *)

(** C7: when the decoding of any of the three timestamp fields of a
    matched window fails, [parse_times] gives three zeros, whatever the
    other fields hold, and the loop body still appends the record (with
    the three zeros) and asks for the next iteration. *)
Theorem timestamps_all_zero_on_any_failure
    (f : file) (offset : Z) (inodes : list inode_rec) (block : list byte) :
  fault f = None ->
  0 <= offset ->
  block = window (content f) offset ->
  4 <= len block ->
  py_slice block 0 2 = INODE_MAGIC ->
  raises (unpack_I (py_slice block 32 36))
  \/ raises (unpack_I (py_slice block 40 44))
  \/ raises (unpack_I (py_slice block 48 52)) ->
  parse_times block = (0, 0, 0)
  /\ exists mode_byte f',
       block !! 2%nat = Some mode_byte
       /\ scan_body offset inodes f
          = Ok (Some (inodes ++ [mkInode (offset / 512)
                                   (parse_file_type (byte_val mode_byte))
                                   0 0 0]), f').
Proof.
  intros Hf Ho Hblock Hlen Hmagic Hfail.
  pose proof (parse_times_failure block Hfail) as Hzero.
  split; [exact Hzero|].
  destruct (window_lookup_2 block Hlen) as (m & Hm & _).
  exists m. eexists. split; [exact Hm|].
  rewrite scan_body_readable by assumption.
  unfold window_record. rewrite <- Hblock.
  destruct (Z.ltb_spec (len block) 4); [lia|].
  apply bytes_eqb_eq in Hmagic. rewrite Hmagic, Hm.
  unfold make_inode. rewrite Hzero. reflexivity.
Qed.

(** ** The partial window at the end of the image *)

(** C10: when the length of the image is not a multiple of 512, the scan
    of the whole image returns, and the bytes after the last multiple of
    512 are treated as a window: if they are at least four and start with
    [IN], the last record returned is theirs, numbered by that offset, with
    three zero timestamps when they are fewer than the 52 bytes that the
    timestamp fields need; if they are fewer than four, no record bears
    that number. *)
Theorem partial_final_window_is_scanned (f : file) :
  fault f = None ->
  len (content f) mod 512 <> 0 ->
  let n := len (content f) in
  let o := 512 * (n / 512) in
  let tail := drop (Z.to_nat o) (content f) in
  exists inodes f',
    scan_and_classify_inodes n f = Ok (inodes, f')
    /\ (4 <= len tail ->
        take 2 tail = INODE_MAGIC ->
        exists mode_byte,
          tail !! 2%nat = Some mode_byte
          /\ last inodes = Some (make_inode o mode_byte tail)
          /\ inode (make_inode o mode_byte tail) = n / 512
          /\ (len tail < 52 ->
              make_inode o mode_byte tail
              = mkInode (n / 512) (parse_file_type (byte_val mode_byte)) 0 0 0))
    /\ (len tail < 4 -> Forall (fun r => inode r <> n / 512) inodes).
Proof.
  intros Hf Hpartial n o tail.
  pose proof (len_nonneg (content f)) as Hn0. fold n in Hn0, Hpartial.
  pose proof (Z.div_mod n 512 ltac:(lia)) as Hdm.
  pose proof (Z.mod_pos_bound n 512 ltac:(lia)) as Hmb.
  assert (0 <= n / 512) as Hq by (apply Z.div_pos; lia).
  assert (len tail = n mod 512) as Htail.
  { unfold tail. rewrite len_drop. fold n. rewrite Z2Nat.id by lia.
    unfold o. lia. }
  assert (window (content f) o = tail) as Hwin.
  { unfold window, tail. apply take_ge. unfold INODE_SIZE.
    unfold len in Htail. unfold tail in Htail. lia. }
  assert (window_count n = S (Z.to_nat (n / 512))) as Hcount.
  { unfold window_count, INODE_SIZE.
    replace ((n + (512 - 1)) / 512) with (n / 512 + 1).
    - rewrite Z2Nat.inj_add by lia. simpl. lia.
    - apply Z.div_unique with (r := n mod 512 - 1); lia. }
  destruct (scan_and_classify_inodes_readable n f Hf) as (f' & Hrun).
  rewrite Hcount, window_records_snoc in Hrun.
  rewrite Z2Nat.id in Hrun by lia. rewrite Z.add_0_l in Hrun.
  change (INODE_SIZE * (n / 512)) with o in Hrun.
  eexists _, f'. split; [exact Hrun|]. split.
  - intros Hlen Hmagic.
    destruct (window_lookup_2 tail Hlen) as (m & Hm & _).
    exists m. split; [exact Hm|].
    assert (window_record (content f) o = [make_inode o m tail]) as ->.
    { unfold window_record. rewrite Hwin.
      destruct (Z.ltb_spec (len tail) 4); [lia|].
      rewrite py_slice_take_drop by lia.
      change (Z.to_nat (2 - 0)) with 2%nat. change (Z.to_nat 0) with 0%nat.
      rewrite drop_0. apply bytes_eqb_eq in Hmagic. rewrite Hmagic, Hm.
      reflexivity. }
    split; [apply last_snoc|].
    destruct (make_inode_fields o m tail) as (Hi & Ht & Hts).
    split.
    + rewrite Hi. unfold o, INODE_SIZE.
      rewrite Z.mul_comm, Z.div_mul by lia. reflexivity.
    + intros Hshort. unfold make_inode.
      rewrite (parse_times_short tail Hshort).
      unfold o, INODE_SIZE. rewrite Z.mul_comm, Z.div_mul by lia. reflexivity.
  - intros Hlen.
    assert (window_record (content f) o = []) as ->.
    { unfold window_record. rewrite Hwin.
      destruct (Z.ltb_spec (len tail) 4); [reflexivity|lia]. }
    rewrite app_nil_r.
    destruct (window_records_origin (content f) (Z.to_nat (n / 512)) 0)
      as (offs & Hrec & Hrange & _); [lia|reflexivity|].
    rewrite Z2Nat.id in Hrange by lia.
    revert Hrange. clear - Hrec Hq.
    induction Hrec as [|o' r offs rs (Ho & Hom & Hw & Hi) _ IH];
      intros Hrange; constructor.
    + inversion Hrange as [|? ? Hb _]; subst. rewrite Hi.
      unfold INODE_SIZE in *.
      assert (o' / 512 < n / 512); [|lia].
      apply Z.div_lt_upper_bound; lia.
    + inversion Hrange; subst. apply IH. assumption.
Qed.

Lemma scan_records_on_ascending_strides_witness :
  exists offsets : list Z,
    Forall2 (fun o r =>
               0 <= o /\ o mod 512 = 0 /\ o < 1024
               /\ window_record image_one_file o = [r]
               /\ inode r = o / 512) offsets [mkInode 1 8 1 2 3]
    /\ StronglySorted Z.lt offsets
    /\ StronglySorted Z.lt (map inode [mkInode 1 8 1 2 3]).
Proof.
  apply (scan_records_on_ascending_strides 1024
           (mkFile image_one_file 0 None) (mkFile image_one_file 1024 None)
           [mkInode 1 8 1 2 3]).
  vm_compute. reflexivity.
Defined.

Lemma timestamps_all_zero_on_any_failure_witness :
  unpack_I (py_slice image_truncated 32 36) = Ok 5
  /\ parse_times image_truncated = (0, 0, 0)
  /\ exists mode_byte f',
       image_truncated !! 2%nat = Some mode_byte
       /\ scan_body 0 [] (mkFile image_truncated 0 None)
          = Ok (Some ([] ++ [mkInode (0 / 512)
                               (parse_file_type (byte_val mode_byte))
                               0 0 0]), f').
Proof.
  split; [vm_compute; reflexivity|].
  apply (timestamps_all_zero_on_any_failure
           (mkFile image_truncated 0 None) 0 [] image_truncated).
  - reflexivity.
  - lia.
  - vm_compute. reflexivity.
  - vm_compute. discriminate.
  - vm_compute. reflexivity.
  - right. left. exists StructError. vm_compute. reflexivity.
Defined.

Lemma partial_final_window_is_scanned_witness :
  exists inodes f',
    scan_and_classify_inodes 40 (mkFile image_truncated 0 None) = Ok (inodes, f')
    /\ last inodes = Some (mkInode 0 8 0 0 0).
Proof.
  destruct (partial_final_window_is_scanned (mkFile image_truncated 0 None))
    as (inodes & f' & Hrun & Hlast & _).
  - reflexivity.
  - vm_compute. discriminate.
  - exists inodes, f'. split; [exact Hrun|].
    destruct Hlast as (m & Hm & Hl & _).
    + vm_compute. discriminate.
    + vm_compute. reflexivity.
    + rewrite Hl. vm_compute in Hm. injection Hm as <-.
      vm_compute. reflexivity.
Defined.

(** ** The short-form scan *)

(** [parse_shortform_inode] never raises: the subscript 176 is taken only
    in a window of 256 bytes. *)
Lemma parse_shortform_inode_returns (data : list byte) (offset : Z) :
  exists result, parse_shortform_inode data offset = Ok result.
Proof.
  unfold parse_shortform_inode.
  destruct (Z.ltb_spec (len (py_slice data offset (offset + 256))) 256) as [|Hlen];
    simpl; [eexists; reflexivity|].
  destruct (negb _); [eexists; reflexivity|].
  destruct (py_getitem_lookup (py_slice data offset (offset + 256)) 176)
    as (x & _ & ->); [lia|].
  simpl. destruct (byte_val x =? 0); eexists; reflexivity.
Qed.

(** C2, amended: when the two bytes at the cursor are [IN] the iteration
    moves the cursor by exactly 256 bytes whether the window validates (one
    record is reported) or not (nothing is reported); the cursor moves by
    16 bytes exactly when the two bytes at the cursor are not [IN]; and
    the loop continues from the cursor that the iteration returns. *)
Theorem shortform_cursor_advance (data : list byte) (offset found : Z) :
  (py_slice data offset (offset + 2) = INODE_MAGIC ->
   exists result,
     parse_shortform_inode data offset = Ok result
     /\ shortform_body data offset found
        = match result with
          | Some r =>
              ([LShortform (sf_inode_number r) (sf_offset r) (sf_entry_count r)],
               Ok (offset + 256, found + 1))
          | None => ([], Ok (offset + 256, found))
          end)
  /\ (py_slice data offset (offset + 2) <> INODE_MAGIC ->
      shortform_body data offset found = ([], Ok (offset + 16, found)))
  /\ (forall fuel : nat,
        offset < len data - 256 ->
        shortform_loop (S fuel) data offset found
        = (do st <- shortform_body data offset found ;
           shortform_loop fuel data (fst st) (snd st))%pr).
Proof.
  split; [|split].
  - intros Hsig. apply bytes_eqb_eq in Hsig.
    destruct (parse_shortform_inode_returns data offset) as (result & Hparse).
    exists result. split; [exact Hparse|].
    unfold shortform_body. rewrite Hsig, Hparse.
    destruct result; reflexivity.
  - intros Hsig. apply bytes_eqb_neq in Hsig.
    unfold shortform_body. rewrite Hsig. reflexivity.
  - intros fuel Hin. cbn [shortform_loop].
    destruct (Z.ltb_spec offset (len data - 256)); [reflexivity|lia].
Qed.

Lemma shortform_cursor_advance_witness :
  exists result,
    parse_shortform_inode buffer_shadowed_window 0 = Ok result
    /\ shortform_body buffer_shadowed_window 0 0
       = match result with
         | Some r =>
             ([LShortform (sf_inode_number r) (sf_offset r) (sf_entry_count r)],
              Ok (0 + 256, 0 + 1))
         | None => ([], Ok (0 + 256, 0))
         end.
Proof.
  apply (shortform_cursor_advance buffer_shadowed_window 0 0).
  vm_compute. reflexivity.
Defined.

(** C2 as stated fails: in [buffer_shadowed_window] the two bytes at
    cursor 0 are [IN] and the window fails validation (its entry count is
    0), yet the iteration does not leave the cursor at 16. *)
Lemma shortform_advance_16_counterexample :
  py_slice buffer_shadowed_window 0 (0 + 2) = INODE_MAGIC
  /\ parse_shortform_inode buffer_shadowed_window 0 = Ok None
  /\ 0 < len buffer_shadowed_window - 256
  /\ ~ (exists out found',
          shortform_body buffer_shadowed_window 0 0 = (out, Ok (0 + 16, found'))).
Proof.
  split; [vm_compute; reflexivity|].
  split; [vm_compute; reflexivity|].
  split; [vm_compute; reflexivity|].
  intros (out & found' & H). vm_compute in H. discriminate H.
Qed.

(** C3 at the failing input: [buffer_last_window] is a valid window at
    offset 0, which is the buffer length minus 256 and where the cursor
    starts; [parse_shortform_inode] accepts it, and the scan reports
    nothing. *)
Theorem last_window_not_reported :
  len buffer_last_window - 256 = 0
  /\ parse_shortform_inode buffer_last_window 0 = Ok (Some (mkShortform 0 0 1))
  /\ scan_shortform_inodes buffer_last_window = ([LScanning; LNoneFound], Ok tt).
Proof. vm_compute. repeat split; reflexivity. Qed.

(** ** The cursor of the short-form scan *)

Lemma shortform_next_cases (data : list byte) (offset : Z) :
  shortform_next data offset = offset + 16
  \/ shortform_next data offset = offset + 256.
Proof. unfold shortform_next. destruct (bytes_eqb _ _); auto. Qed.

(** An iteration never raises; it prints [window_report], moves the
    cursor to [shortform_next] and counts what it printed. *)
Lemma shortform_body_spec (data : list byte) (offset found : Z) :
  shortform_body data offset found
  = (window_report data offset,
     Ok (shortform_next data offset, found + len (window_report data offset))).
Proof.
  unfold shortform_body, window_report, shortform_next.
  destruct (bytes_eqb _ _).
  - destruct (parse_shortform_inode_returns data offset) as ([r|] & ->).
    + cbn. reflexivity.
    + cbn. rewrite Z.add_0_r. reflexivity.
  - unfold pr_ret. cbn. rewrite Z.add_0_r. reflexivity.
Qed.

Lemma window_report_offset (data : list byte) (offset : Z) :
  Forall (fun l => report_offset l = Some offset) (window_report data offset).
Proof.
  unfold window_report, parse_shortform_inode.
  destruct (bytes_eqb _ _); [|constructor].
  destruct (_ || _); [constructor|].
  destruct (py_getitem _ _) as [x| |]; cbn; try constructor.
  destruct (byte_val x =? 0); repeat constructor.
Qed.

(** Whatever the loop prints, with any fuel, is printed by the iteration
    at some cursor from [offset] on and below the bound of the loop. *)
Lemma shortform_loop_lines (data : list byte) (fuel : nat) :
  forall (offset found : Z) (out : list line) (r : result Z),
    shortform_loop fuel data offset found = (out, r) ->
    Forall (fun l => exists c, In l (window_report data c)
                               /\ report_offset l = Some c
                               /\ offset <= c < len data - 256) out.
Proof.
  induction fuel as [|fuel IH]; intros offset found out r Hrun.
  - injection Hrun as <- _. constructor.
  - cbn [shortform_loop] in Hrun.
    destruct (Z.ltb_spec offset (len data - 256)) as [Hin|Hout].
    + rewrite shortform_body_spec in Hrun. cbn [pr_bind fst snd] in Hrun.
      destruct (shortform_loop fuel data (shortform_next data offset)
                  (found + len (window_report data offset))) as [out' r'] eqn:Hrest.
      injection Hrun as <- _.
      apply Forall_app. split.
      * pose proof (window_report_offset data offset) as Hoff.
        rewrite List.Forall_forall in Hoff. apply List.Forall_forall.
        intros l Hl. exists offset. split; [exact Hl|].
        split; [apply Hoff; exact Hl|lia].
      * eapply Forall_impl; [exact (IH _ _ _ _ Hrest)|].
        intros l (c & Hl & Hc & Hrange). exists c. split; [exact Hl|].
        split; [exact Hc|].
        destruct (shortform_next_cases data offset) as [Hn|Hn];
          rewrite Hn in Hrange; lia.
    + injection Hrun as <- _. constructor.
Qed.

(** With fuel for every 16-byte stride that is left the loop returns, and
    [found] has grown by the number of reports. *)
Lemma shortform_loop_returns (data : list byte) (fuel : nat) :
  forall offset found : Z,
    (Z.to_nat ((len data - 256 - offset + 15) / 16) < fuel)%nat ->
    exists out,
      shortform_loop fuel data offset found = (out, Ok (found + len out)).
Proof.
  induction fuel as [|fuel IH]; intros offset found Hfuel; [lia|].
  cbn [shortform_loop].
  destruct (Z.ltb_spec offset (len data - 256)) as [Hin|Hout].
  - rewrite shortform_body_spec. cbn [pr_bind fst snd].
    destruct (IH (shortform_next data offset)
                (found + len (window_report data offset))) as (out & ->).
    { assert ((len data - 256 - shortform_next data offset + 15) / 16
              <= (len data - 256 - offset + 15) / 16 - 1).
      { replace ((len data - 256 - offset + 15) / 16 - 1)
          with ((len data - 256 - offset + 15 + (-1) * 16) / 16)
          by (rewrite Z.div_add by lia; reflexivity).
        apply Z.div_le_mono; [lia|].
        destruct (shortform_next_cases data offset) as [-> | ->]; lia. }
      assert (1 <= (len data - 256 - offset + 15) / 16)
        by (apply Z.div_le_lower_bound; lia).
      lia. }
    eexists. rewrite len_app, Z.add_assoc. reflexivity.
  - exists []. unfold pr_ret. cbn. rewrite Z.add_0_r. reflexivity.
Qed.

Lemma shortform_fuel_enough (data : list byte) :
  (Z.to_nat ((len data - 256 - 0 + 15) / 16) < shortform_fuel data)%nat.
Proof.
  unfold shortform_fuel.
  pose proof (len_nonneg data).
  assert ((len data - 256 - 0 + 15) / 16 <= len data / 16)
    by (apply Z.div_le_mono; lia).
  assert (0 <= len data / 16) by (apply Z.div_pos; lia).
  lia.
Qed.

(** The scan returns normally on every buffer; every record it reports
    is the report of an iteration at a cursor below the buffer length minus
    256. *)
Lemma scan_shortform_inodes_returns (data : list byte) :
  exists reports,
    scan_shortform_inodes data
    = (LScanning :: reports ++ (if len reports =? 0 then [LNoneFound] else []),
       Ok tt)
    /\ shortform_loop (shortform_fuel data) data 0 0 = (reports, Ok (len reports))
    /\ Forall (fun l => exists c, In l (window_report data c)
                                  /\ report_offset l = Some c
                                  /\ 0 <= c < len data - 256) reports.
Proof.
  destruct (shortform_loop_returns data (shortform_fuel data) 0 0
              (shortform_fuel_enough data)) as (out & Hrun).
  rewrite Z.add_0_l in Hrun.
  exists out. split; [|split; [exact Hrun|]].
  - unfold scan_shortform_inodes, print, pr_ret. cbn [pr_bind app].
    rewrite Hrun. cbn [pr_bind app].
    destruct (len out =? 0); cbn; reflexivity.
  - exact (shortform_loop_lines _ _ _ _ _ _ Hrun).
Qed.

Lemma count_reports_at_app (X : Z) (out out' : list line) :
  count_reports_at X (out ++ out')
  = (count_reports_at X out + count_reports_at X out')%nat.
Proof.
  induction out as [|l out IH]; [reflexivity|]. cbn.
  destruct (report_offset l) as [o|]; [|exact IH].
  destruct (o =? X); [rewrite IH; reflexivity|exact IH].
Qed.

Lemma count_reports_at_elsewhere (X : Z) (out : list line) :
  Forall (fun l => exists o, report_offset l = Some o /\ o <> X) out ->
  count_reports_at X out = O.
Proof.
  induction 1 as [|l out (o & Ho & Hne) _ IH]; [reflexivity|].
  cbn. rewrite Ho. destruct (Z.eqb_spec o X); [contradiction|exact IH].
Qed.

Lemma reaches_from_ge (data : list byte) (o X : Z) :
  reaches_from data o X -> o <= X.
Proof.
  induction 1 as [|o X Hin _ IH]; [lia|].
  destruct (shortform_next_cases data o) as [Hn|Hn]; rewrite Hn in IH; lia.
Qed.

(** The reports at a cursor that the loop visits are those of its
    iteration there, and no other iteration reports at that offset. *)
Lemma shortform_loop_reports_at (data : list byte) (X : Z) :
  forall (o : Z),
    reaches_from data o X ->
    X < len data - 256 ->
    forall (fuel : nat) (found : Z) (out : list line) (found' : Z),
      shortform_loop fuel data o found = (out, Ok found') ->
      count_reports_at X out = count_reports_at X (window_report data X)
      /\ (forall l, In l (window_report data X) -> In l out).
Proof.
  induction 1 as [o|o X Hin Hreach IH]; intros HX fuel found out found' Hrun;
    (destruct fuel as [|fuel]; [discriminate|]);
    cbn [shortform_loop] in Hrun;
    (destruct (Z.ltb_spec o (len data - 256)); [|lia]);
    rewrite shortform_body_spec in Hrun; cbn [pr_bind fst snd] in Hrun;
    destruct (shortform_loop fuel data (shortform_next data o)
                (found + len (window_report data o))) as [out' r] eqn:Hrest;
    destruct r as [fr| |]; try discriminate;
    injection Hrun as <- _.
  - (* the iteration at the cursor itself *)
    split; [|intros l Hl; apply in_or_app; left; exact Hl].
    rewrite count_reports_at_app.
    assert (count_reports_at o out' = O) as ->; [|lia].
    apply count_reports_at_elsewhere.
    eapply Forall_impl; [exact (shortform_loop_lines _ _ _ _ _ _ Hrest)|].
    intros l (c & _ & Hc & Hr). exists c. split; [exact Hc|].
    destruct (shortform_next_cases data o) as [Hn|Hn]; rewrite Hn in Hr; lia.
  - (* an earlier iteration *)
    destruct (IH HX fuel _ _ _ Hrest) as [Hcount Hin'].
    pose proof (reaches_from_ge _ _ _ Hreach) as Hge.
    split.
    + rewrite count_reports_at_app, Hcount.
      assert (count_reports_at X (window_report data o) = O) as ->; [|lia].
      apply count_reports_at_elsewhere.
      eapply Forall_impl; [apply window_report_offset|].
      intros l Hl. exists o. split; [exact Hl|].
      destruct (shortform_next_cases data o) as [Hn|Hn]; rewrite Hn in Hge; lia.
    + intros l Hl. apply in_or_app. right. apply Hin'. exact Hl.
Qed.

Lemma count_reports_at_scan (X : Z) (reports : list line) :
  count_reports_at X
    (LScanning :: reports ++ (if len reports =? 0 then [LNoneFound] else []))
  = count_reports_at X reports.
Proof.
  cbn. rewrite count_reports_at_app.
  destruct (len reports =? 0); cbn; lia.
Qed.

(** The signature test of the loop and the one of [parse_shortform_inode]
    look at the same two bytes. *)
Lemma window_signature (data : list byte) (X : Z) :
  0 <= X ->
  py_slice (py_slice data X (X + 256)) 0 2 = py_slice data X (X + 2).
Proof.
  intros HX. rewrite !py_slice_take_drop by lia.
  change (Z.to_nat (2 - 0)) with 2%nat. change (Z.to_nat 0) with 0%nat.
  rewrite drop_0, take_take.
  replace (Z.to_nat (X + 256 - X)) with 256%nat by lia.
  replace (Z.to_nat (X + 2 - X)) with 2%nat by lia.
  reflexivity.
Qed.

Lemma window_report_valid (data : list byte) (X : Z) (r : shortform_rec) :
  0 <= X ->
  parse_shortform_inode data X = Ok (Some r) ->
  sf_offset r = X
  /\ window_report data X = [LShortform (sf_inode_number r) X (sf_entry_count r)].
Proof.
  intros HX Hparse. unfold window_report. rewrite Hparse.
  unfold parse_shortform_inode in Hparse.
  rewrite window_signature in Hparse by assumption.
  destruct (len (py_slice data X (X + 256)) <? 256); [discriminate|].
  destruct (bytes_eqb (py_slice data X (X + 2)) INODE_MAGIC); [|discriminate].
  cbn in Hparse.
  destruct (py_getitem _ _) as [x| |]; cbn in Hparse; try discriminate.
  destruct (byte_val x =? 0); [discriminate|].
  injection Hparse as <-. cbn. auto.
Qed.

(** The part of C3 that the code satisfies: a valid window at a cursor
    that the loop visits, below the buffer length minus 256, is reported
    exactly once, with its own offset. *)
Lemma visited_valid_window_reported_once
    (data : list byte) (X : Z) (r : shortform_rec) :
  cursor_reaches data X ->
  X < len data - 256 ->
  parse_shortform_inode data X = Ok (Some r) ->
  exists out,
    scan_shortform_inodes data = (out, Ok tt)
    /\ count_reports_at X out = 1%nat
    /\ In (LShortform (sf_inode_number r) X (sf_entry_count r)) out.
Proof.
  intros Hreach HX Hparse.
  pose proof (reaches_from_ge _ _ _ Hreach) as HX0.
  destruct (window_report_valid data X r HX0 Hparse) as [_ Hreport].
  destruct (scan_shortform_inodes_returns data) as (reports & Hscan & Hloop & _).
  destruct (shortform_loop_reports_at data X 0 Hreach HX _ _ _ _ Hloop)
    as [Hcount Hin].
  eexists. split; [exact Hscan|]. split.
  - rewrite count_reports_at_scan, Hcount, Hreport. cbn.
    rewrite Z.eqb_refl. reflexivity.
  - right. apply in_or_app. left. apply Hin. rewrite Hreport. left. reflexivity.
Qed.

(** A window that [parse_shortform_inode] rejects is never reported. *)
Lemma rejected_window_not_reported (data : list byte) (X : Z) :
  parse_shortform_inode data X = Ok None ->
  exists out,
    scan_shortform_inodes data = (out, Ok tt)
    /\ count_reports_at X out = O.
Proof.
  intros Hparse.
  destruct (scan_shortform_inodes_returns data) as (reports & Hscan & _ & Hlines).
  eexists. split; [exact Hscan|].
  rewrite count_reports_at_scan.
  apply count_reports_at_elsewhere.
  eapply Forall_impl; [exact Hlines|].
  intros l (c & Hl & Hc & _). exists c. split; [exact Hc|].
  intros ->. unfold window_report in Hl. rewrite Hparse in Hl.
  destruct (bytes_eqb _ _); destruct Hl.
Qed.

(** No window that starts at the buffer length minus 256 or later is
    reported. *)
Lemma last_window_never_reported (data : list byte) (X : Z) :
  len data - 256 <= X ->
  exists out,
    scan_shortform_inodes data = (out, Ok tt)
    /\ count_reports_at X out = O.
Proof.
  intros HX.
  destruct (scan_shortform_inodes_returns data) as (reports & Hscan & _ & Hlines).
  eexists. split; [exact Hscan|].
  rewrite count_reports_at_scan.
  apply count_reports_at_elsewhere.
  eapply Forall_impl; [exact Hlines|].
  intros l (c & _ & Hc & Hrange). exists c. split; [exact Hc|lia].
Qed.

(** ** The name resolver *)

Lemma py_int_outcome (s : string) :
  (exists n, py_int s = Ok n) \/ py_int s = Raise (ValueError s).
Proof.
  unfold py_int.
  match goal with |- context [match ?r with Some _ => _ | None => _ end] =>
    destruct r end; [|right; reflexivity].
  destruct (INT_MAX_STR_DIGITS <? _);
    [right; reflexivity|left; eexists; reflexivity].
Qed.

(** The loop ends normally or with the exception of [int]. *)
Lemma ncheck_lines_outcome (lines : list string) :
  forall name_map : gmap Z string,
    exists m, ncheck_lines lines name_map = (m, Ok tt)
              \/ exists e, ncheck_lines lines name_map = (m, Raise e).
Proof.
  induction lines as [|line lines IH]; intros name_map; cbn [ncheck_lines].
  - exists name_map. left. reflexivity.
  - destruct (py_split_ws1 (py_strip line)) as [|p0 [|p1 [|p2 ps]]]; try apply IH.
    destruct (py_int_outcome p0) as [[n ->]| ->]; [apply IH|].
    exists name_map. right. eexists. reflexivity.
Qed.

(** When the line [bad] is the first one whose inode number is refused,
    the loop stops there with the entries of the lines before it. *)
Lemma ncheck_lines_failure (pre post : list string) (bad p0 p1 : string) (e : exn) :
  forall name_map m : gmap Z string,
    ncheck_lines pre name_map = (m, Ok tt) ->
    py_split_ws1 (py_strip bad) = [p0; p1] ->
    py_int p0 = Raise e ->
    ncheck_lines (pre ++ bad :: post) name_map = (m, Raise e).
Proof.
  induction pre as [|line pre IH]; intros name_map m Hpre Hsplit Hint.
  - simpl in Hpre. injection Hpre as <-. simpl. rewrite Hsplit, Hint. reflexivity.
  - cbn [ncheck_lines app] in *.
    destruct (py_split_ws1 (py_strip line)) as [|q0 [|q1 [|q2 qs]]];
      try (apply IH; assumption).
    destruct (py_int q0); [apply IH; assumption|discriminate..].
Qed.

(** C9, amended: every failure of the name resolver ends in one warning
    and a normal return, never in an exception.  The mapping returned is
    empty when the utility could not be run or its output not decoded; when
    the inode number of a line is refused by [int], it is the mapping of
    the lines before that line. *)
Theorem ncheck_failure_warns_and_keeps_parsed_lines
    (xfs_ncheck : string -> exn + string) (image_path : string) :
  (forall e,
      xfs_ncheck image_path = inl e ->
      parse_xfs_ncheck xfs_ncheck image_path = ([LWarning e], Ok ∅))
  /\ (forall output pre bad post p0 p1 e (m : gmap Z string),
        xfs_ncheck image_path = inr output ->
        py_split_char "010" (py_strip output) = pre ++ bad :: post ->
        ncheck_lines pre ∅ = (m, Ok tt) ->
        py_split_ws1 (py_strip bad) = [p0; p1] ->
        py_int p0 = Raise e ->
        parse_xfs_ncheck xfs_ncheck image_path = ([LWarning e], Ok m))
  /\ (exists out m,
        parse_xfs_ncheck xfs_ncheck image_path = (out, Ok m)
        /\ (out = [] \/ exists e, out = [LWarning e])).
Proof.
  unfold parse_xfs_ncheck. split; [|split].
  - intros e ->. reflexivity.
  - intros output pre bad post p0 p1 e m -> Hlines Hpre Hsplit Hint.
    rewrite Hlines.
    rewrite (ncheck_lines_failure pre post bad p0 p1 e ∅ m Hpre Hsplit Hint).
    reflexivity.
  - destruct (xfs_ncheck image_path) as [e|output].
    + eexists _, _. split; [reflexivity|]. right. eexists. reflexivity.
    + destruct (ncheck_lines_outcome (py_split_char "010" (py_strip output)) ∅)
        as (m & [-> | [e ->]]); eexists _, _; (split; [reflexivity|]).
      * left. reflexivity.
      * right. eexists. reflexivity.
Qed.

Lemma ncheck_failure_warns_and_keeps_parsed_lines_witness :
  parse_xfs_ncheck ncheck_missing "image" = ([LWarning FileNotFoundError], Ok ∅)
  /\ parse_xfs_ncheck ncheck_second_line_bad "image"
     = ([LWarning (ValueError "xx")], Ok (<[5 := "/a"%string]> ∅)).
Proof.
  split.
  - apply (ncheck_failure_warns_and_keeps_parsed_lines ncheck_missing "image").
    reflexivity.
  - apply (ncheck_failure_warns_and_keeps_parsed_lines
             ncheck_second_line_bad "image")
      with (output := "5 /a
xx /b"%string) (pre := ["5 /a"%string]) (bad := "xx /b"%string) (post := [])
           (p0 := "xx"%string) (p1 := "/b"%string);
      vm_compute; reflexivity.
Defined.

(** C9 as stated fails: the second line of the output has a malformed
    inode number, the resolver warns, and the mapping it returns still
    holds the entry of the first line. *)
Lemma ncheck_failure_nonempty_counterexample :
  exists m : gmap Z string,
    parse_xfs_ncheck ncheck_second_line_bad "image"
    = ([LWarning (ValueError "xx")], Ok m)
    /\ m !! 5 = Some "/a"%string
    /\ m <> ∅.
Proof.
  exists (<[5 := "/a"%string]> ∅).
  split; [vm_compute; reflexivity|].
  split; [apply lookup_insert_eq|apply insert_non_empty].
Qed.

(** ** Fatal input/output errors *)

Lemma detect_xfs_magic_unreadable (f : file) (e : exn) :
  fault f = Some e -> detect_xfs_magic f = Raise e.
Proof.
  intros Hf. unfold detect_xfs_magic, io_bind, f_seek, f_read.
  cbn [XFS_SUPERBLOCK_OFFSET Z.ltb Z.compare fault]. rewrite Hf. reflexivity.
Qed.

(** C8, amended: when the image cannot be opened, or is opened and
    cannot be read, the run prints one [Error] line (after the [Checking]
    line when the image was opened) and no line of the report, [main]
    returns normally, and the exit status of the process is 0. *)
Theorem fatal_io_error_one_diagnostic_status_zero
    (xfs_ncheck : string -> exn + string) (open_rb : string -> exn + file)
    (image_path : string) (allocated deleted shortform : bool) (e : exn) :
  Z.b2z allocated + Z.b2z deleted + Z.b2z shortform <= 1 ->
  (open_rb image_path = inl e ->
   script xfs_ncheck open_rb image_path allocated deleted shortform
   = ([LError e], Ok 0))
  /\ (forall f,
        open_rb image_path = inr f ->
        fault f = Some e ->
        script xfs_ncheck open_rb image_path allocated deleted shortform
        = ([LChecking image_path; LError e], Ok 0)).
Proof.
  intros Hflags. unfold script.
  destruct (Z.ltb_spec 1 (Z.b2z allocated + Z.b2z deleted + Z.b2z shortform));
    [lia|].
  unfold main, main_body. split.
  - intros ->. reflexivity.
  - intros f -> Hf. cbn [of_sum pr_lift pr_bind print on_file app].
    rewrite (detect_xfs_magic_unreadable f e Hf). reflexivity.
Qed.

Lemma fatal_io_error_one_diagnostic_status_zero_witness :
  script ncheck_missing open_missing "image" false false false
  = ([LError (OSError "No such file or directory")], Ok 0).
Proof.
  apply (fatal_io_error_one_diagnostic_status_zero
           ncheck_missing open_missing "image" false false false
           (OSError "No such file or directory")).
  - simpl. lia.
  - reflexivity.
Defined.

(** C8 as stated fails: the image cannot be opened and the exit status
    is not different from 0. *)
Lemma fatal_io_error_nonzero_status_counterexample :
  ~ (exists out status,
       script ncheck_missing open_missing "image" false false false
       = (out, Ok status)
       /\ status <> 0).
Proof.
  intros (out & status & Hrun & Hstatus).
  vm_compute in Hrun. injection Hrun as _ <-. apply Hstatus. reflexivity.
Qed.

(** ** The whole run returns *)

Lemma neighbour_lookup_returns (inodes : list inode_rec) (j : Z) :
  0 <= j < len inodes ->
  exists b, (do p <- py_getitem inodes j ;
             Ok (dict_mem FILE_TYPES (type_code p)))%res = Ok b.
Proof.
  intros Hj. destruct (py_getitem_lookup inodes j Hj) as (p & _ & ->).
  eexists. reflexivity.
Qed.

(** The label of a record at an index of the sequence is computed without
    an exception. *)
Lemma file_type_of_returns (inodes : list inode_rec) (i : Z) (r : inode_rec) :
  0 <= i < len inodes ->
  exists file_type, file_type_of inodes i r = Ok file_type.
Proof.
  intros Hi. unfold file_type_of.
  destruct (inode r =? 128); [eexists; reflexivity|].
  destruct (type_code r =? 0); [|eexists; reflexivity].
  destruct (Z.ltb_spec 0 i).
  - destruct (neighbour_lookup_returns inodes (i - 1)) as (pb & ->); [lia|].
    cbn [rbind].
    destruct (Z.ltb_spec (i + 1) (len inodes)).
    + destruct (neighbour_lookup_returns inodes (i + 1)) as (nb & ->); [lia|].
      cbn [rbind]. destruct (_ && _); eexists; reflexivity.
    + cbn [rbind]. destruct (_ && _); eexists; reflexivity.
  - cbn [rbind].
    destruct (Z.ltb_spec (i + 1) (len inodes)).
    + destruct (neighbour_lookup_returns inodes (i + 1)) as (nb & ->); [lia|].
      cbn [rbind]. destruct (_ && _); eexists; reflexivity.
    + cbn [rbind]. destruct (_ && _); eexists; reflexivity.
Qed.

Lemma classify_entry_returns (inodes : list inode_rec) (name_map : gmap Z string)
    (only_allocated only_deleted : bool) (i : Z) (r : inode_rec) :
  0 <= i < len inodes ->
  exists out counted,
    classify_entry inodes name_map only_allocated only_deleted i r
    = (out, Ok counted).
Proof.
  intros Hi. unfold classify_entry.
  destruct (file_type_of_returns inodes i r Hi) as (ft & ->).
  unfold pr_lift, print, pr_ret. cbn [pr_bind app].
  destruct (_ && _); [eexists _, _; reflexivity|].
  destruct (_ && _); [eexists _, _; reflexivity|].
  destruct (has_times_of r); eexists _, _; reflexivity.
Qed.

Lemma classify_loop_returns (inodes : list inode_rec) (name_map : gmap Z string)
    (only_allocated only_deleted : bool) (rest : list inode_rec) :
  forall i total : Z,
    0 <= i ->
    i + len rest = len inodes ->
    exists out total',
      classify_loop inodes name_map only_allocated only_deleted i rest total
      = (out, Ok total').
Proof.
  induction rest as [|r rest IH]; intros i total Hi Hlen; cbn [classify_loop].
  - eexists _, _. reflexivity.
  - unfold len in Hlen. cbn [length] in Hlen.
    destruct (classify_entry_returns inodes name_map only_allocated only_deleted i r)
      as (out & counted & ->); [unfold len; lia|].
    cbn [pr_bind].
    destruct (IH (i + 1) (if counted then total + 1 else total))
      as (out' & total' & ->); [lia|unfold len; lia|].
    eexists _, _. reflexivity.
Qed.

Lemma classify_and_print_returns (inodes : list inode_rec)
    (name_map : gmap Z string) (only_allocated only_deleted : bool) :
  exists out,
    classify_and_print inodes name_map only_allocated only_deleted = (out, Ok tt).
Proof.
  unfold classify_and_print.
  destruct (classify_loop_returns inodes name_map only_allocated only_deleted
              inodes 0 0) as (out & total & ->); [lia|lia|].
  unfold print. cbn [pr_bind]. eexists. reflexivity.
Qed.

(** The inode scan never runs out of fuel: it returns, or raises the
    fault of the file. *)
Lemma scan_and_classify_inodes_outcome (filesize : Z) (f : file) :
  (exists inodes f', scan_and_classify_inodes filesize f = Ok (inodes, f'))
  \/ (exists e, scan_and_classify_inodes filesize f = Raise e).
Proof.
  destruct (fault f) as [e|] eqn:Hf.
  - unfold scan_and_classify_inodes, scan_fuel.
    rewrite Nat.add_comm. cbn [Nat.add scan_loop].
    destruct (0 <? filesize).
    + right. exists e. unfold io_bind, scan_body, io_bind, f_seek, f_read.
      cbn. rewrite Hf. reflexivity.
    + left. eexists _, _. reflexivity.
  - left. destruct (scan_and_classify_inodes_readable filesize f Hf) as (f' & ->).
    eexists _, _. reflexivity.
Qed.

Lemma parse_xfs_ncheck_returns
    (xfs_ncheck : string -> exn + string) (image_path : string) :
  exists out m, parse_xfs_ncheck xfs_ncheck image_path = (out, Ok m).
Proof.
  unfold parse_xfs_ncheck.
  destruct (xfs_ncheck image_path) as [e|output].
  - eexists _, _. reflexivity.
  - destruct (ncheck_lines_outcome (py_split_char "010" (py_strip output)) ∅)
      as (m & [-> | [e ->]]); eexists _, _; reflexivity.
Qed.

Lemma settles_bind {A B} (m : Pr A) (k : A -> Pr B) :
  settles m -> (forall a, settles (k a)) -> settles (pr_bind m k).
Proof.
  unfold settles. destruct m as [out [a|e|]]; cbn; intros Hm Hk;
    [|discriminate|contradiction].
  specialize (Hk a). destruct (k a) as [out' r]. exact Hk.
Qed.

Lemma settles_returns {A} (out : list line) (a : A) : settles (out, Ok a).
Proof. unfold settles. discriminate. Qed.

Lemma settles_raises {A} (out : list line) (e : exn) : settles (A := A) (out, Raise e).
Proof. unfold settles. discriminate. Qed.

Lemma settles_on_file {A} (m : IO A) (f : file) :
  m f <> OutOfFuel -> settles (on_file m f).
Proof. unfold settles, on_file. cbn. auto. Qed.

Lemma file_operations_settle (f : file) (n : Z) :
  f_seek n f <> OutOfFuel /\ f_seek_end f <> OutOfFuel
  /\ f_tell f <> OutOfFuel /\ f_read_all f <> OutOfFuel
  /\ detect_xfs_magic f <> OutOfFuel.
Proof.
  unfold detect_xfs_magic, io_bind, f_seek, f_seek_end, f_tell, f_read_all,
    f_read, io_ret.
  repeat split; cbn; try destruct (n <? 0); try destruct (fault f);
    discriminate.
Qed.

(** Every run of [main] returns normally, whatever the environment does. *)
Lemma main_returns
    (xfs_ncheck : string -> exn + string) (open_rb : string -> exn + file)
    (image_path : string) (only_allocated only_deleted shortform : bool) :
  exists out,
    main xfs_ncheck open_rb image_path only_allocated only_deleted shortform
    = (out, Ok tt).
Proof.
  assert (settles (main_body xfs_ncheck open_rb image_path
                     only_allocated only_deleted shortform)) as Hbody.
  { unfold main_body.
    apply settles_bind.
    { destruct (open_rb image_path); [apply settles_raises|apply settles_returns]. }
    intros f. apply settles_bind; [apply settles_returns|]. intros _.
    apply settles_bind; [apply settles_on_file, (file_operations_settle f 0)|].
    intros [b f1]. cbn [fst snd].
    destruct b; cbn [negb]; [|apply settles_returns].
    apply settles_bind; [apply settles_returns|]. intros _.
    destruct shortform.
    - apply settles_bind; [apply settles_on_file, (file_operations_settle f1 0)|].
      intros [p f2]. cbn [snd].
      apply settles_bind; [apply settles_on_file, (file_operations_settle f2 0)|].
      intros [data f3]. cbn [fst].
      destruct (scan_shortform_inodes_returns data) as (reports & -> & _).
      apply settles_returns.
    - apply settles_bind; [apply settles_on_file, (file_operations_settle f1 0)|].
      intros [p f2]. cbn [snd].
      apply settles_bind; [apply settles_on_file, (file_operations_settle f2 0)|].
      intros [filesize f3]. cbn [fst snd].
      apply settles_bind; [apply settles_on_file, (file_operations_settle f3 0)|].
      intros [p' f4]. cbn [snd].
      apply settles_bind.
      { apply settles_on_file.
        destruct (scan_and_classify_inodes_outcome filesize f4)
          as [(inodes & f5 & ->)|(e & ->)]; discriminate. }
      intros [inodes f5]. cbn [fst].
      destruct inodes as [|r inodes]; [apply settles_returns|].
      apply settles_bind.
      { destruct (parse_xfs_ncheck_returns xfs_ncheck image_path)
          as (w & m & ->). apply settles_returns. }
      intros name_map.
      destruct (classify_and_print_returns (r :: inodes) name_map
                  only_allocated only_deleted) as (out & ->).
      apply settles_returns. }
  unfold main. unfold settles in Hbody.
  destruct (main_body _ _ _ _ _ _) as [out [[]|e|]]; cbn in Hbody;
    [eexists; reflexivity..|contradiction].
Qed.

Lemma script_status
    (xfs_ncheck : string -> exn + string) (open_rb : string -> exn + file)
    (image_path : string) (allocated deleted shortform : bool) :
  exists out status,
    script xfs_ncheck open_rb image_path allocated deleted shortform
    = (out, Ok status)
    /\ (status = 1 <-> 1 < Z.b2z allocated + Z.b2z deleted + Z.b2z shortform)
    /\ (status = 0 <-> Z.b2z allocated + Z.b2z deleted + Z.b2z shortform <= 1).
Proof.
  unfold script.
  destruct (Z.ltb_spec 1 (Z.b2z allocated + Z.b2z deleted + Z.b2z shortform)).
  - eexists _, _. split; [reflexivity|]. lia.
  - destruct (main_returns xfs_ncheck open_rb image_path allocated deleted shortform)
      as (out & ->).
    eexists _, _. split; [reflexivity|]. lia.
Qed.

(** ** The end-to-end scenarios *)

(** One window at byte 512 with type nibble 8 and timestamps 1, 2, 3: one
    inode, number 1, a regular file with its times. *)
Example scenario_regular_file :
  main ncheck_missing (fun _ => inr (mkFile image_one_file 0 None))
    "image" false false false
  = ([LChecking "image"; LDetected; LWarning FileNotFoundError;
      LInode 1 "Regular File" "(unknown)"; LTimes 1 2 3; LTotal 1],
     Ok tt).
Proof. vm_compute. reflexivity. Qed.

(** A record of type code 0 without timestamps stays [Unknown (0x0)]
    next to a directory. *)
Example scenario_unknown_next_to_directory :
  file_type_of [mkInode 0 4 1 1 1; mkInode 1 0 0 0 0] 1 (mkInode 1 0 0 0 0)
  = Ok "Unknown (0x0)"%string.
Proof. reflexivity. Qed.

(** A window whose first two bytes are not [IN] contributes no record. *)
Example scenario_superblock_window_skipped :
  window_record image_one_file 0 = []
  /\ window_record image_one_file 512 = [mkInode 1 8 1 2 3].
Proof. vm_compute. split; reflexivity. Qed.

(** The valid window at offset 16 of [buffer_shadowed_window] is skipped
    with the 256 bytes that follow the rejected signature at offset 0. *)
Example scenario_shadowed_window :
  parse_shortform_inode buffer_shadowed_window 16 = Ok (Some (mkShortform 0 16 5))
  /\ scan_shortform_inodes buffer_shadowed_window = ([LScanning; LNoneFound], Ok tt).
Proof. vm_compute. split; reflexivity. Qed.

(** * Further properties *)

(** ** Decoding of the mode byte and of the timestamps *)

Lemma byte_val_range (b : byte) : 0 <= byte_val b < 256.
Proof.
  unfold byte_val. pose proof (Byte.to_N_bounded b). lia.
Qed.

Lemma parse_file_type_mod (mode_byte : Z) :
  parse_file_type mode_byte = (mode_byte / 16) mod 16.
Proof.
  unfold parse_file_type.
  change 15 with (Z.ones 4).
  rewrite Z.land_ones by lia. rewrite Z.shiftr_div_pow2 by lia.
  reflexivity.
Qed.

Lemma parse_file_type_range (mode_byte : Z) : 0 <= parse_file_type mode_byte <= 15.
Proof.
  rewrite parse_file_type_mod.
  pose proof (Z.mod_pos_bound (mode_byte / 16) 16 ltac:(lia)). lia.
Qed.

(** X1: the type code is the high nibble of the mode byte: for every byte
    it is the byte divided by 16, for every integer it lies between 0 and
    15, and the low nibble does not matter. *)
Theorem parse_file_type_high_nibble (b : byte) (mode_byte low : Z) :
  parse_file_type (byte_val b) = byte_val b / 16
  /\ 0 <= parse_file_type mode_byte <= 15
  /\ parse_file_type (16 * mode_byte + low mod 16) = mode_byte mod 16.
Proof.
  split; [|split].
  - rewrite parse_file_type_mod. apply Z.mod_small.
    pose proof (byte_val_range b).
    split; [apply Z.div_pos; lia|apply Z.div_lt_upper_bound; lia].
  - apply parse_file_type_range.
  - rewrite parse_file_type_mod. f_equal.
    pose proof (Z.mod_pos_bound low 16 ltac:(lia)).
    symmetry. apply Z.div_unique with (r := low mod 16); lia.
Qed.

Lemma int_from_bytes_big_snoc (bs : list byte) (b : byte) :
  int_from_bytes_big (bs ++ [b]) = int_from_bytes_big bs * 256 + byte_val b.
Proof. unfold int_from_bytes_big. rewrite fold_left_app. reflexivity. Qed.

Lemma int_from_bytes_big_range (bs : list byte) :
  0 <= int_from_bytes_big bs < 256 ^ len bs.
Proof.
  induction bs as [|b bs IH] using rev_ind.
  - change (0 <= 0 < 1). lia.
  - rewrite int_from_bytes_big_snoc, len_app.
    change (len [b]) with 1.
    rewrite Z.pow_add_r by (pose proof (len_nonneg bs); lia).
    pose proof (byte_val_range b). nia.
Qed.

Lemma unpack_I_range (bs : list byte) (v : Z) :
  unpack_I bs = Ok v -> 0 <= v < 2 ^ 32.
Proof.
  unfold unpack_I. destruct (Z.eqb_spec (len bs) 4) as [Hlen|]; [|discriminate].
  intros [= <-]. pose proof (int_from_bytes_big_range bs) as Hr.
  rewrite Hlen in Hr. exact Hr.
Qed.

Lemma unpack_I_field_ok (block : list byte) (lo : Z) :
  0 <= lo -> lo + 4 <= len block ->
  unpack_I (py_slice block lo (lo + 4))
  = Ok (int_from_bytes_big (py_slice block lo (lo + 4))).
Proof.
  intros Hlo Hlen. unfold unpack_I.
  rewrite len_py_slice by lia.
  destruct (Z.eqb_spec (Z.max 0 (Z.min (lo + 4 - lo) (len block - lo))) 4);
    [reflexivity|lia].
Qed.

Lemma parse_times_range (block : list byte) :
  0 <= (parse_times block).1.1 < 2 ^ 32
  /\ 0 <= (parse_times block).1.2 < 2 ^ 32
  /\ 0 <= (parse_times block).2 < 2 ^ 32.
Proof.
  unfold parse_times, parse_times_try.
  destruct (unpack_I (py_slice block 32 36)) as [a| |] eqn:Ha; cbn; try lia.
  destruct (unpack_I (py_slice block 40 44)) as [m| |] eqn:Hm; cbn; try lia.
  destruct (unpack_I (py_slice block 48 52)) as [c| |] eqn:Hc; cbn; try lia.
  apply unpack_I_range in Ha, Hm, Hc. auto.
Qed.

(** X2: [parse_times] decodes the three big-endian fields exactly when
    the block has the 52 bytes they need, gives three zeros otherwise, and
    every value it returns is an unsigned 32-bit number. *)
Theorem parse_times_decodes_or_zeroes (block : list byte) :
  parse_times block
  = (if len block <? 52 then (0, 0, 0) else timestamp_fields block)
  /\ 0 <= (parse_times block).1.1 < 2 ^ 32
  /\ 0 <= (parse_times block).1.2 < 2 ^ 32
  /\ 0 <= (parse_times block).2 < 2 ^ 32.
Proof.
  split; [|apply parse_times_range].
  destruct (Z.ltb_spec (len block) 52) as [Hshort|Hfull].
  - apply parse_times_short. exact Hshort.
  - unfold parse_times, parse_times_try, timestamp_fields.
    change 36 with (32 + 4). change 44 with (40 + 4). change 52 with (48 + 4).
    rewrite !unpack_I_field_ok by lia. reflexivity.
Qed.

(** ** What the inode scan returns *)

Lemma window_record_inv (data : list byte) (o : Z) (r : inode_rec) :
  In r (window_record data o) <->
  exists mode_byte,
    4 <= len (window data o)
    /\ py_slice (window data o) 0 2 = INODE_MAGIC
    /\ window data o !! 2%nat = Some mode_byte
    /\ r = make_inode o mode_byte (window data o).
Proof.
  unfold window_record.
  destruct (Z.ltb_spec (len (window data o)) 4) as [Hs|Hl].
  { split; [intros []|intros (m & Hlen & _); lia]. }
  destruct (bytes_eqb (py_slice (window data o) 0 2) INODE_MAGIC) eqn:Hsig.
  - apply bytes_eqb_eq in Hsig.
    destruct (window_lookup_2 (window data o) Hl) as (m & Hm & _).
    rewrite Hm. split.
    + intros [<-|[]]. exists m. auto.
    + intros (m' & _ & _ & Hm' & ->). left. congruence.
  - apply bytes_eqb_neq in Hsig.
    split; [intros []|intros (m & _ & Hmagic & _); contradiction].
Qed.

Lemma make_inode_well_formed (o : Z) (mode_byte : byte) (block : list byte) :
  0 <= type_code (make_inode o mode_byte block) <= 15
  /\ 0 <= atime (make_inode o mode_byte block) < 2 ^ 32
  /\ 0 <= mtime (make_inode o mode_byte block) < 2 ^ 32
  /\ 0 <= ctime (make_inode o mode_byte block) < 2 ^ 32.
Proof.
  destruct (make_inode_fields o mode_byte block) as (_ & Ht & Hts).
  pose proof (parse_times_range block) as Hr. rewrite <- Hts in Hr.
  rewrite Ht. split; [apply parse_file_type_range|exact Hr].
Qed.

Lemma window_records_app (data : list byte) (n k : nat) (offset : Z) :
  window_records data (n + k) offset
  = window_records data n offset
    ++ window_records data k (offset + INODE_SIZE * Z.of_nat n).
Proof.
  revert offset. induction n as [|n IH]; intros offset.
  - cbn. f_equal. lia.
  - cbn [Nat.add window_records]. rewrite IH, <- app_assoc.
    do 3 f_equal. lia.
Qed.

Lemma window_records_length (data : list byte) (n : nat) (offset : Z) :
  (length (window_records data n offset) <= n)%nat.
Proof.
  revert offset. induction n as [|n IH]; intros offset; [cbn; lia|].
  cbn [window_records]. rewrite length_app. specialize (IH (offset + INODE_SIZE)).
  destruct (window_record_cases data offset) as [->|(r & -> & _)]; cbn; lia.
Qed.

(** Membership in the records of [n] windows. *)
Lemma window_records_In (data : list byte) (n : nat) (r : inode_rec) :
  forall offset : Z,
    In r (window_records data n offset) <->
    exists k : nat, (k < n)%nat
                    /\ In r (window_record data (offset + INODE_SIZE * Z.of_nat k)).
Proof.
  induction n as [|n IH]; intros offset.
  - cbn. split; [intros []|intros (k & Hk & _); lia].
  - cbn [window_records]. rewrite in_app_iff, IH. split.
    + intros [Hhere|(k & Hk & Hin)].
      * exists O. split; [lia|]. rewrite Z.mul_0_r, Z.add_0_r. exact Hhere.
      * exists (S k). split; [lia|].
        replace (offset + INODE_SIZE * Z.of_nat (S k))
          with (offset + INODE_SIZE + INODE_SIZE * Z.of_nat k) by lia.
        exact Hin.
    + intros ([|k] & Hk & Hin).
      * left. rewrite Z.mul_0_r, Z.add_0_r in Hin. exact Hin.
      * right. exists k. split; [lia|].
        replace (offset + INODE_SIZE + INODE_SIZE * Z.of_nat k)
          with (offset + INODE_SIZE * Z.of_nat (S k)) by lia.
        exact Hin.
Qed.

Lemma window_count_spec (filesize k : Z) :
  0 <= k ->
  (k < Z.of_nat (window_count filesize) <-> INODE_SIZE * k < filesize).
Proof.
  intros Hk. unfold window_count, INODE_SIZE.
  pose proof (Z.div_mod (filesize + (512 - 1)) 512 ltac:(lia)).
  pose proof (Z.mod_pos_bound (filesize + (512 - 1)) 512 ltac:(lia)).
  lia.
Qed.

(** X3: on a readable image the scan returns, and a record is returned
    exactly when it is the record of a 512-byte stride below [filesize]
    whose window has at least four bytes and starts with [IN]: no matching
    window is missed, and no other window contributes. *)
Theorem scan_returns_exactly_the_matching_windows (filesize : Z) (f : file) :
  fault f = None ->
  exists inodes f',
    scan_and_classify_inodes filesize f = Ok (inodes, f')
    /\ forall r : inode_rec,
         In r inodes <->
         exists (k : Z) (mode_byte : byte),
           0 <= k /\ 512 * k < filesize
           /\ 4 <= len (window (content f) (512 * k))
           /\ py_slice (window (content f) (512 * k)) 0 2 = INODE_MAGIC
           /\ window (content f) (512 * k) !! 2%nat = Some mode_byte
           /\ r = make_inode (512 * k) mode_byte (window (content f) (512 * k)).
Proof.
  intros Hf.
  destruct (scan_and_classify_inodes_readable filesize f Hf) as (f' & Hrun).
  eexists _, f'. split; [exact Hrun|].
  intros r. rewrite window_records_In. split.
  - intros (k & Hk & Hin). rewrite Z.add_0_l in Hin.
    apply window_record_inv in Hin. destruct Hin as (m & Hin).
    exists (Z.of_nat k), m. split; [lia|].
    split; [apply (window_count_spec filesize (Z.of_nat k)); lia|].
    exact Hin.
  - intros (k & m & Hk & Hlt & Hin).
    exists (Z.to_nat k). split.
    + apply (window_count_spec filesize k Hk) in Hlt. lia.
    + rewrite Z.add_0_l, Z2Nat.id by lia.
      apply window_record_inv. exists m. exact Hin.
Qed.

Lemma scan_returns_exactly_the_matching_windows_witness :
  exists inodes f',
    scan_and_classify_inodes 1024 (mkFile image_one_file 0 None) = Ok (inodes, f')
    /\ In (mkInode 1 8 1 2 3) inodes.
Proof.
  destruct (scan_returns_exactly_the_matching_windows 1024
              (mkFile image_one_file 0 None) eq_refl)
    as (inodes & f' & Hrun & Hiff).
  exists inodes, f'. split; [exact Hrun|].
  apply Hiff. exists 1, x80. vm_compute. repeat split; discriminate.
Defined.

(** X4: every record that the scan returns is well formed: its inode
    number is not negative and its stride starts below [filesize], its
    type code is a nibble and its timestamps are unsigned 32-bit numbers;
    and there is at most one record per 512-byte stride. *)
Theorem scanned_records_well_formed
    (filesize : Z) (f f' : file) (inodes : list inode_rec) :
  scan_and_classify_inodes filesize f = Ok (inodes, f') ->
  Forall (well_formed_record filesize) inodes
  /\ (length inodes <= window_count filesize)%nat.
Proof.
  intros Hrun.
  destruct (fault f) as [e|] eqn:Hf.
  { rewrite (scan_and_classify_inodes_unreadable _ _ _ _ _ Hf Hrun).
    split; [constructor|cbn; lia]. }
  destruct (scan_and_classify_inodes_readable filesize f Hf) as (f'' & Hexact).
  rewrite Hexact in Hrun. injection Hrun as <- _.
  split; [|apply window_records_length].
  apply List.Forall_forall. intros r Hin.
  apply window_records_In in Hin. destruct Hin as (k & Hk & Hin).
  rewrite Z.add_0_l in Hin.
  apply window_record_inv in Hin. destruct Hin as (m & _ & _ & _ & ->).
  destruct (make_inode_fields (INODE_SIZE * Z.of_nat k) m
              (window (content f) (INODE_SIZE * Z.of_nat k))) as (Hi & _).
  unfold well_formed_record. rewrite Hi.
  replace (INODE_SIZE * Z.of_nat k / INODE_SIZE) with (Z.of_nat k)
    by (unfold INODE_SIZE; rewrite Z.mul_comm, Z.div_mul; lia).
  split; [lia|]. split.
  - apply (window_count_spec filesize (Z.of_nat k)); lia.
  - apply make_inode_well_formed.
Qed.

Lemma scanned_records_well_formed_witness :
  Forall (well_formed_record 1024) [mkInode 1 8 1 2 3]
  /\ (length [mkInode 1 8 1 2 3] <= window_count 1024)%nat.
Proof.
  apply (scanned_records_well_formed 1024
           (mkFile image_one_file 0 None) (mkFile image_one_file 1024 None)).
  vm_compute. reflexivity.
Defined.

(** X5: a file size beyond the end of the image changes nothing: the
    loop stops at the first block of fewer than four bytes, so the records
    are those of the scan up to the real length. *)
Theorem scan_ignores_oversized_filesize (filesize : Z) (f : file) :
  fault f = None ->
  len (content f) <= filesize ->
  exists inodes f1 f2,
    scan_and_classify_inodes filesize f = Ok (inodes, f1)
    /\ scan_and_classify_inodes (len (content f)) f = Ok (inodes, f2).
Proof.
  intros Hf Hsize.
  destruct (scan_and_classify_inodes_readable filesize f Hf) as (f1 & Hbig).
  destruct (scan_and_classify_inodes_readable (len (content f)) f Hf)
    as (f2 & Hreal).
  eexists _, f1, f2. split; [exact Hbig|]. rewrite Hreal. do 2 f_equal.
  assert (window_count (len (content f)) <= window_count filesize)%nat as Hle.
  { unfold window_count, INODE_SIZE. apply Z2Nat.inj_le.
    - apply Z.div_pos; [pose proof (len_nonneg (content f))|]; lia.
    - apply Z.div_pos; [pose proof (len_nonneg (content f))|]; lia.
    - apply Z.div_le_mono; lia. }
  replace (window_count filesize)
    with (window_count (len (content f))
          + (window_count filesize - window_count (len (content f))))%nat by lia.
  rewrite window_records_app.
  rewrite (window_records_past_end (content f)
             (window_count filesize - window_count (len (content f)))
             (0 + INODE_SIZE * Z.of_nat (window_count (len (content f)))));
    [rewrite app_nil_r; reflexivity|unfold INODE_SIZE; lia|].
  rewrite Z.add_0_l.
  pose proof (len_nonneg (content f)).
  unfold window_count, INODE_SIZE.
  pose proof (Z.div_mod (len (content f) + (512 - 1)) 512 ltac:(lia)).
  pose proof (Z.mod_pos_bound (len (content f) + (512 - 1)) 512 ltac:(lia)).
  lia.
Qed.

Lemma scan_ignores_oversized_filesize_witness :
  exists inodes f1 f2,
    scan_and_classify_inodes 5000 (mkFile image_one_file 0 None) = Ok (inodes, f1)
    /\ scan_and_classify_inodes (len image_one_file) (mkFile image_one_file 0 None)
       = Ok (inodes, f2).
Proof.
  apply (scan_ignores_oversized_filesize 5000 (mkFile image_one_file 0 None)).
  - reflexivity.
  - vm_compute. discriminate.
Defined.

(** X6: the scan has no recovery from a failing read: on an image whose
    reads raise, it raises the same exception at its first read, and
    returns (no record) only when [filesize] is not positive and nothing is
    read. *)
Theorem scan_propagates_read_failure (filesize : Z) (f : file) (e : exn) :
  fault f = Some e ->
  scan_and_classify_inodes filesize f
  = (if 0 <? filesize then Raise e else Ok ([], f)).
Proof.
  intros Hf. unfold scan_and_classify_inodes, scan_fuel.
  rewrite Nat.add_comm. cbn [Nat.add scan_loop].
  destruct (0 <? filesize); [|reflexivity].
  unfold io_bind, scan_body, io_bind, f_seek, f_read. cbn.
  rewrite Hf. reflexivity.
Qed.

Lemma scan_propagates_read_failure_witness :
  scan_and_classify_inodes 1024
    (mkFile image_one_file 0 (Some (OSError "Input/output error")))
  = Raise (OSError "Input/output error").
Proof.
  apply (scan_propagates_read_failure 1024
           (mkFile image_one_file 0 (Some (OSError "Input/output error")))).
  reflexivity.
Defined.

(** ** What the classifier prints *)

(** The iteration for the record at a valid index: skipped by a filter,
    or one inode line, followed by the times when all three are set. *)
Lemma classify_entry_spec (inodes : list inode_rec) (name_map : gmap Z string)
    (only_allocated only_deleted : bool) (i : Z) (r : inode_rec) :
  0 <= i < len inodes ->
  exists file_type,
    file_type_of inodes i r = Ok file_type
    /\ classify_entry inodes name_map only_allocated only_deleted i r
       = if (only_allocated && ((type_code r =? 0) || negb (has_times_of r)))
            || (only_deleted
                && negb (String.eqb file_type "Probably Deleted File"))
         then ([], Ok false)
         else (LInode (inode r) file_type (name_of name_map (inode r))
                 :: (if has_times_of r
                     then [LTimes (atime r) (mtime r) (ctime r)] else []),
               Ok true).
Proof.
  intros Hi. destruct (file_type_of_returns inodes i r Hi) as (ft & Hft).
  exists ft. split; [exact Hft|].
  unfold classify_entry, name_of. rewrite Hft.
  unfold pr_lift, print, pr_ret. cbn [pr_bind app].
  destruct (only_allocated && _); [reflexivity|]. cbn [orb].
  destruct (only_deleted && _); [reflexivity|].
  destruct (has_times_of r); reflexivity.
Qed.

Lemma count_inode_lines_app (out out' : list line) :
  count_inode_lines (out ++ out') = count_inode_lines out + count_inode_lines out'.
Proof.
  induction out as [|l out IH]; [reflexivity|].
  destruct l; cbn; rewrite ?IH; lia.
Qed.

Lemma reported_numbers_app (out out' : list line) :
  reported_numbers (out ++ out') = reported_numbers out ++ reported_numbers out'.
Proof.
  induction out as [|l out IH]; [reflexivity|].
  destruct l; cbn; rewrite ?IH; reflexivity.
Qed.

(** The loop prints [report_lines] and adds the number of inode lines to
    [total]. *)
Lemma classify_loop_spec (inodes : list inode_rec) (name_map : gmap Z string)
    (only_allocated only_deleted : bool) (rest : list inode_rec) :
  forall i total : Z,
    0 <= i ->
    i + len rest = len inodes ->
    classify_loop inodes name_map only_allocated only_deleted i rest total
    = (report_lines inodes name_map only_allocated only_deleted i rest,
       Ok (total + count_inode_lines
                     (report_lines inodes name_map only_allocated only_deleted
                        i rest))).
Proof.
  induction rest as [|r rest IH]; intros i total Hi Hlen;
    cbn [classify_loop report_lines].
  - cbn. rewrite Z.add_0_r. reflexivity.
  - unfold len in Hlen. cbn [length] in Hlen.
    destruct (classify_entry_spec inodes name_map only_allocated only_deleted i r)
      as (ft & _ & Hentry); [unfold len; lia|].
    rewrite Hentry, count_inode_lines_app.
    destruct (_ || _); cbn [pr_bind fst app count_inode_lines];
      rewrite IH by (unfold len; lia).
    + rewrite Z.add_0_l. reflexivity.
    + destruct (has_times_of r); cbn [app count_inode_lines];
        do 2 f_equal; lia.
Qed.

Lemma classify_and_print_spec (inodes : list inode_rec)
    (name_map : gmap Z string) (only_allocated only_deleted : bool) :
  classify_and_print inodes name_map only_allocated only_deleted
  = (report_lines inodes name_map only_allocated only_deleted 0 inodes
     ++ [LTotal (count_inode_lines
                   (report_lines inodes name_map only_allocated only_deleted
                      0 inodes))],
     Ok tt).
Proof.
  unfold classify_and_print.
  rewrite classify_loop_spec by lia. reflexivity.
Qed.

(** A property of every iteration at a valid index is a property of the
    whole report. *)
Lemma report_lines_Forall (P : line -> Prop) (inodes : list inode_rec)
    (name_map : gmap Z string) (only_allocated only_deleted : bool) :
  (forall i r,
      0 <= i < len inodes ->
      Forall P (fst (classify_entry inodes name_map only_allocated only_deleted i r))) ->
  forall (rest : list inode_rec) (i : Z),
    0 <= i ->
    i + len rest = len inodes ->
    Forall P (report_lines inodes name_map only_allocated only_deleted i rest).
Proof.
  intros Hentry rest. induction rest as [|r rest IH]; intros i Hi Hlen;
    cbn [report_lines]; [constructor|].
  unfold len in Hlen. cbn [length] in Hlen.
  apply Forall_app. split.
  - apply Hentry. unfold len. lia.
  - apply IH; unfold len; lia.
Qed.

Lemma file_type_of_deleted_inv (inodes : list inode_rec) (i : Z) (r : inode_rec) :
  file_type_of inodes i r = Ok "Probably Deleted File"%string ->
  inode r <> 128 /\ type_code r = 0 /\ has_times_of r = true.
Proof.
  unfold file_type_of.
  destruct (Z.eqb_spec (inode r) 128); [discriminate|].
  destruct (Z.eqb_spec (type_code r) 0) as [Htc|Htc].
  - intros H. split; [assumption|]. split; [assumption|].
    destruct (has_times_of r); [reflexivity|].
    destruct (if 0 <? i then _ else _) as [pb| |]; cbn in H; try discriminate.
    destruct (if i + 1 <? len inodes then _ else _) as [nb| |]; cbn in H;
      try discriminate.
    rewrite andb_false_r in H. discriminate.
  - unfold FILE_TYPES. cbn [dict_get].
    repeat match goal with
           | |- context [?k =? type_code r] => destruct (k =? type_code r)
           end; cbn; discriminate.
Qed.

Lemma inode_lines_app (out out' : list line) :
  inode_lines (out ++ out') = inode_lines out ++ inode_lines out'.
Proof.
  induction out as [|l out IH]; [reflexivity|].
  destruct l; cbn; rewrite ?IH; reflexivity.
Qed.

(** Without a filter the loop prints one inode line per record, in
    order: the inode line number [j] is the line of the record number [j],
    labelled by [file_type_of] at the index that the loop has reached
    there. *)
Lemma unfiltered_inode_lines (inodes : list inode_rec) (name_map : gmap Z string)
    (rest : list inode_rec) :
  forall i : Z,
    0 <= i ->
    i + len rest = len inodes ->
    length (inode_lines (report_lines inodes name_map false false i rest))
    = length rest
    /\ count_inode_lines (report_lines inodes name_map false false i rest)
       = len rest
    /\ forall (j : nat) (r : inode_rec),
         rest !! j = Some r ->
         exists file_type,
           file_type_of inodes (i + Z.of_nat j) r = Ok file_type
           /\ inode_lines (report_lines inodes name_map false false i rest) !! j
              = Some (LInode (inode r) file_type (name_of name_map (inode r))).
Proof.
  induction rest as [|r0 rest IH]; intros i Hi Hlen; cbn [report_lines].
  - split; [reflexivity|]. split; [reflexivity|]. intros j r Hj. discriminate Hj.
  - unfold len in Hlen |- *. cbn [length] in Hlen |- *.
    destruct (IH (i + 1) ltac:(lia) ltac:(unfold len; lia))
      as (IHlen & IHcount & IHline).
    unfold len in IHcount.
    destruct (classify_entry_spec inodes name_map false false i r0)
      as (ft & Hft & Hentry); [unfold len; lia|].
    rewrite Hentry, inode_lines_app, count_inode_lines_app.
    cbn [andb orb fst].
    assert (inode_lines
              (LInode (inode r0) ft (name_of name_map (inode r0))
                 :: (if has_times_of r0
                     then [LTimes (atime r0) (mtime r0) (ctime r0)] else []))
            = [LInode (inode r0) ft (name_of name_map (inode r0))]) as ->
      by (destruct (has_times_of r0); reflexivity).
    assert (count_inode_lines
              (LInode (inode r0) ft (name_of name_map (inode r0))
                 :: (if has_times_of r0
                     then [LTimes (atime r0) (mtime r0) (ctime r0)] else []))
            = 1) as ->
      by (destruct (has_times_of r0); reflexivity).
    split; [cbn; lia|]. split; [lia|].
    intros [|j] r Hj.
    + injection Hj as <-. exists ft. rewrite Z.add_0_r. split; [exact Hft|].
      reflexivity.
    + destruct (IHline j r Hj) as (ft' & Hft' & Hline).
      exists ft'. split; [|exact Hline].
      replace (i + Z.of_nat (S j)) with (i + 1 + Z.of_nat j) by lia.
      exact Hft'.
Qed.

(** C1: in the report that [classify_and_print] prints without a filter
    there is one inode line per scanned record, in scan order; for the
    record at index [i] of the sequence, when its inode number is not 128
    and its type code is 0, the label on its line is [Probably Deleted
    File] if and only if its three timestamps are nonzero and the record at
    index [i - 1] or the record at index [i + 1] (where there is one) has a
    type code of the table; otherwise the label is [Unknown (0x0)]. *)
Theorem report_labels_deleted_iff_times_and_known_neighbour
    (inodes : list inode_rec) (name_map : gmap Z string)
    (i : nat) (r : inode_rec) :
  inodes !! i = Some r ->
  inode r <> 128 ->
  type_code r = 0 ->
  let deleted :=
    (atime r <> 0 /\ mtime r <> 0 /\ ctime r <> 0)
    /\ ((0 < i)%nat /\ known_at inodes (i - 1) \/ known_at inodes (i + 1)) in
  exists body label,
    classify_and_print inodes name_map false false
    = (body ++ [LTotal (len inodes)], Ok tt)
    /\ length (inode_lines body) = length inodes
    /\ inode_lines body !! i
       = Some (LInode (inode r) label
                 (default "(unknown)"%string (name_map !! inode r)))
    /\ (label = "Probably Deleted File"%string <-> deleted)
    /\ (label = "Unknown (0x0)"%string <-> ~ deleted).
Proof.
  intros Hr H128 Htc deleted.
  destruct (unfiltered_inode_lines inodes name_map inodes 0 ltac:(lia) ltac:(lia))
    as (Hlen & Hcount & Hline).
  destruct (Hline i r Hr) as (label & Hlabel & Hith).
  rewrite Z.add_0_l in Hlabel.
  destruct (deleted_iff_times_and_known_neighbour inodes i r Hr H128 Htc)
    as [Hdel Hunk].
  rewrite Hlabel in Hdel, Hunk.
  eexists _, label. split; [|split; [exact Hlen|split; [|split]]].
  - rewrite classify_and_print_spec, Hcount. reflexivity.
  - rewrite Hith. unfold name_of.
    destruct (Z.eqb_spec (inode r) 128); [contradiction|reflexivity].
  - split; [intros ->; apply Hdel; reflexivity|].
    intros H. apply Hdel in H. injection H as ->. reflexivity.
  - split; [intros ->; apply Hunk; reflexivity|].
    intros H. apply Hunk in H. injection H as ->. reflexivity.
Qed.

Lemma report_labels_deleted_iff_times_and_known_neighbour_witness :
  exists body,
    classify_and_print [mkInode 0 4 0 0 0; mkInode 1 0 7 8 9] ∅ false false
    = (body ++ [LTotal 2], Ok tt)
    /\ inode_lines body !! 1%nat
       = Some (LInode 1 "Probably Deleted File" "(unknown)").
Proof.
  destruct (report_labels_deleted_iff_times_and_known_neighbour
              [mkInode 0 4 0 0 0; mkInode 1 0 7 8 9] ∅ 1 (mkInode 1 0 7 8 9))
    as (body & label & Hrun & _ & Hline & Hdel & _);
    [reflexivity | simpl; lia | reflexivity |].
  exists body. split; [exact Hrun|].
  rewrite Hline. cbn [inode]. rewrite lookup_empty. cbn [default].
  assert (label = "Probably Deleted File"%string) as ->; [|reflexivity].
  apply Hdel. split; [simpl; lia|]. left. split; [lia|].
  exists (mkInode 0 4 0 0 0). split; [reflexivity|].
  unfold known_type. simpl. tauto.
Defined.

(** X7: the report of the classifier consists of inode lines and of times
    lines with three nonzero timestamps, and ends with the total, which is
    the number of inode lines printed, whatever the filters are. *)
Theorem classifier_total_counts_reported_inodes (inodes : list inode_rec)
    (name_map : gmap Z string) (only_allocated only_deleted : bool) :
  exists body,
    classify_and_print inodes name_map only_allocated only_deleted
    = (body ++ [LTotal (count_inode_lines body)], Ok tt)
    /\ Forall report_line body
    /\ 0 <= count_inode_lines body <= len inodes.
Proof.
  eexists. split; [apply classify_and_print_spec|]. split.
  - apply report_lines_Forall; [|lia..].
    intros i r Hi.
    destruct (classify_entry_spec inodes name_map only_allocated only_deleted i r Hi)
      as (ft & _ & ->).
    destruct (_ || _); cbn [fst]; [constructor|].
    constructor; [left; eauto|].
    destruct (has_times_of r) eqn:Ht; [|constructor].
    apply has_times_of_true in Ht. constructor; [|constructor].
    right. eexists _, _, _. split; [reflexivity|exact Ht].
  - assert (forall rest i, 0 <= i -> i + len rest = len inodes ->
              0 <= count_inode_lines
                     (report_lines inodes name_map only_allocated only_deleted i rest)
              <= len rest) as Hcount; [|apply Hcount; lia].
    induction rest as [|r rest IH]; intros i Hi Hlen; cbn [report_lines].
    + change (0 <= 0 <= 0). lia.
    + unfold len in Hlen |- *. cbn [length] in Hlen |- *.
      rewrite count_inode_lines_app.
      specialize (IH (i + 1) ltac:(lia) ltac:(unfold len; lia)).
      unfold len in IH.
      destruct (classify_entry_spec inodes name_map only_allocated only_deleted i r)
        as (ft & _ & ->); [unfold len; lia|].
      destruct (_ || _); cbn [fst count_inode_lines]; [lia|].
      destruct (has_times_of r); cbn [count_inode_lines]; lia.
Qed.

(** X8: without a filter every scanned record is reported, once and in
    scan order, and the total is the number of records. *)
Theorem unfiltered_report_covers_every_record
    (inodes : list inode_rec) (name_map : gmap Z string) :
  exists body,
    classify_and_print inodes name_map false false
    = (body ++ [LTotal (len inodes)], Ok tt)
    /\ reported_numbers body = map inode inodes.
Proof.
  assert (forall rest i, 0 <= i -> i + len rest = len inodes ->
            reported_numbers (report_lines inodes name_map false false i rest)
            = map inode rest
            /\ count_inode_lines (report_lines inodes name_map false false i rest)
               = len rest) as Hall.
  { induction rest as [|r rest IH]; intros i Hi Hlen; cbn [report_lines].
    - split; reflexivity.
    - unfold len in Hlen |- *. cbn [length] in Hlen |- *.
      destruct (IH (i + 1) ltac:(lia) ltac:(unfold len; lia)) as [IHn IHc].
      unfold len in IHc.
      rewrite reported_numbers_app, count_inode_lines_app, IHn, IHc.
      destruct (classify_entry_spec inodes name_map false false i r)
        as (ft & _ & ->); [unfold len; lia|].
      cbn [andb orb fst].
      destruct (has_times_of r); cbn; split; try reflexivity; lia. }
  destruct (Hall inodes 0 ltac:(lia) ltac:(lia)) as [Hn Hc].
  eexists. split; [|exact Hn].
  rewrite classify_and_print_spec, Hc. reflexivity.
Qed.

(** X9: with the deleted-only filter the report is, for a selection of
    the records taken in scan order, the inode line of the record labelled
    [Probably Deleted File] followed by the times of that record, and then
    the total, which is the number of selected records; every selected
    record has type code 0, three nonzero timestamps and is not inode
    128. *)
Theorem deleted_filter_reports_only_deleted (inodes : list inode_rec)
    (name_map : gmap Z string) (only_allocated : bool) :
  exists reported : list inode_rec,
    classify_and_print inodes name_map only_allocated true
    = (flat_map (deleted_entry name_map) reported ++ [LTotal (len reported)],
       Ok tt)
    /\ sublist reported inodes
    /\ Forall (fun r => inode r <> 128 /\ type_code r = 0
                        /\ atime r <> 0 /\ mtime r <> 0 /\ ctime r <> 0)
         reported.
Proof.
  assert (forall i r, 0 <= i < len inodes ->
            fst (classify_entry inodes name_map only_allocated true i r) = []
            \/ fst (classify_entry inodes name_map only_allocated true i r)
               = deleted_entry name_map r
               /\ inode r <> 128 /\ type_code r = 0
               /\ has_times_of r = true) as Hentry.
  { intros i r Hi.
    destruct (classify_entry_spec inodes name_map only_allocated true i r Hi)
      as (ft & Hft & ->).
    destruct (only_allocated && _); [left; reflexivity|]. cbn [orb andb].
    destruct (String.eqb_spec ft "Probably Deleted File") as [->|Hne];
      cbn [negb fst]; [|left; reflexivity].
    destruct (file_type_of_deleted_inv _ _ _ Hft) as (H128 & Htc & Ht).
    right. rewrite Ht. repeat split; assumption. }
  assert (forall rest i, 0 <= i -> i + len rest = len inodes ->
            exists reported,
              report_lines inodes name_map only_allocated true i rest
              = flat_map (deleted_entry name_map) reported
              /\ count_inode_lines
                   (report_lines inodes name_map only_allocated true i rest)
                 = len reported
              /\ sublist reported rest
              /\ Forall (fun r => inode r <> 128 /\ type_code r = 0
                                  /\ atime r <> 0 /\ mtime r <> 0
                                  /\ ctime r <> 0) reported) as Hall.
  { induction rest as [|r rest IH]; intros i Hi Hlen; cbn [report_lines].
    - exists []. repeat split; constructor.
    - unfold len in Hlen. cbn [length] in Hlen.
      destruct (IH (i + 1) ltac:(lia) ltac:(unfold len; lia))
        as (reported & Hlines & Hcount & Hsub & Hrec).
      destruct (Hentry i r ltac:(unfold len; lia))
        as [Hnone|(Hsome & H128 & Htc & Ht)].
      + exists reported. rewrite Hnone. cbn [app].
        split; [exact Hlines|]. split; [exact Hcount|].
        split; [apply sublist_cons; exact Hsub|exact Hrec].
      + exists (r :: reported). rewrite Hsome, count_inode_lines_app, Hcount, Hlines.
        split; [reflexivity|]. split.
        { unfold len. cbn [deleted_entry count_inode_lines length]. lia. }
        split; [apply sublist_skip; exact Hsub|].
        constructor; [|exact Hrec].
        apply has_times_of_true in Ht. tauto. }
  destruct (Hall inodes 0 ltac:(lia) ltac:(lia))
    as (reported & Hlines & Hcount & Hsub & Hrec).
  exists reported. split; [|split; assumption].
  rewrite classify_and_print_spec, Hcount, Hlines. reflexivity.
Qed.

(** X10: with the allocated-only filter no record is reported as
    [Probably Deleted File], and with both filters nothing is reported at
    all. *)
Theorem allocated_filter_excludes_deleted (inodes : list inode_rec)
    (name_map : gmap Z string) :
  (exists body total,
      classify_and_print inodes name_map true false
      = (body ++ [LTotal total], Ok tt)
      /\ Forall (fun l => forall n ft nm,
                     l = LInode n ft nm ->
                     ft <> "Probably Deleted File"%string) body)
  /\ classify_and_print inodes name_map true true = ([LTotal 0], Ok tt).
Proof.
  split.
  - eexists _, _. split; [apply classify_and_print_spec|].
    apply report_lines_Forall; [|lia..].
    intros i r Hi.
    destruct (classify_entry_spec inodes name_map true false i r Hi)
      as (ft & Hft & ->).
    cbn [andb orb].
    destruct (Z.eqb_spec (type_code r) 0) as [Htc|Htc]; cbn [orb fst];
      [constructor|].
    destruct (has_times_of r) eqn:Ht; cbn [negb fst]; [|constructor].
    constructor.
    + intros n ft' nm H. injection H as _ <- _. intros ->.
      apply file_type_of_deleted_inv in Hft. tauto.
    + constructor; [|constructor]. intros n ft' nm H; discriminate H.
  - rewrite classify_and_print_spec.
    assert (forall rest i, 0 <= i -> i + len rest = len inodes ->
              report_lines inodes name_map true true i rest = []) as Hnone.
    { induction rest as [|r rest IH]; intros i Hi Hlen; cbn [report_lines];
        [reflexivity|].
      unfold len in Hlen. cbn [length] in Hlen.
      rewrite IH by (unfold len; lia). rewrite app_nil_r.
      destruct (classify_entry_spec inodes name_map true true i r)
        as (ft & Hft & ->); [unfold len; lia|].
      cbn [andb].
      destruct (Z.eqb_spec (type_code r) 0) as [Htc|Htc]; cbn [orb];
        [reflexivity|].
      destruct (has_times_of r); cbn [negb orb]; [|reflexivity].
      destruct (String.eqb_spec ft "Probably Deleted File") as [->|Hne];
        cbn [negb]; [|reflexivity].
      apply file_type_of_deleted_inv in Hft. tauto. }
    rewrite Hnone by lia. reflexivity.
Qed.

(** X11: every inode line carries the name [.] for inode 128 and
    otherwise the entry of the name map, or [(unknown)] when there is
    none; with an empty map, as after a failure of the resolver, every
    name is [.] or [(unknown)]. *)
Theorem report_names_come_from_the_map (inodes : list inode_rec)
    (name_map : gmap Z string) (only_allocated only_deleted : bool) :
  exists body total,
    classify_and_print inodes name_map only_allocated only_deleted
    = (body ++ [LTotal total], Ok tt)
    /\ Forall (fun l => forall n ft nm,
                   l = LInode n ft nm ->
                   nm = (if n =? 128 then "."%string
                         else default "(unknown)"%string (name_map !! n))
                   /\ (name_map = ∅ ->
                       nm = "."%string \/ nm = "(unknown)"%string)) body.
Proof.
  eexists _, _. split; [apply classify_and_print_spec|].
  apply report_lines_Forall; [|lia..].
  intros i r Hi.
  destruct (classify_entry_spec inodes name_map only_allocated only_deleted i r Hi)
    as (ft & _ & ->).
  destruct (_ || _); cbn [fst]; [constructor|].
  constructor.
  - intros n ft' nm [= <- <- <-]. unfold name_of. split; [reflexivity|].
    intros ->. destruct (inode r =? 128); [left; reflexivity|].
    right. rewrite lookup_empty. reflexivity.
  - destruct (has_times_of r); [|constructor].
    constructor; [|constructor]. intros n ft' nm H. discriminate H.
Qed.

(** X12: a filter only removes records from the report: the lines
    printed under any filters are, in order, among the lines printed
    without a filter, so a filter never changes a label, a name or the
    order of the records. *)
Theorem filters_only_remove_lines (inodes : list inode_rec)
    (name_map : gmap Z string) (only_allocated only_deleted : bool) :
  exists body body',
    classify_and_print inodes name_map only_allocated only_deleted
    = (body ++ [LTotal (count_inode_lines body)], Ok tt)
    /\ classify_and_print inodes name_map false false
       = (body' ++ [LTotal (count_inode_lines body')], Ok tt)
    /\ sublist body body'
    /\ count_inode_lines body <= count_inode_lines body'.
Proof.
  eexists _, _. split; [apply classify_and_print_spec|].
  split; [apply classify_and_print_spec|].
  assert (forall rest i, 0 <= i -> i + len rest = len inodes ->
            sublist
              (report_lines inodes name_map only_allocated only_deleted i rest)
              (report_lines inodes name_map false false i rest)
            /\ count_inode_lines
                 (report_lines inodes name_map only_allocated only_deleted i rest)
               <= count_inode_lines
                    (report_lines inodes name_map false false i rest))
    as Hsub; [|apply Hsub; lia].
  induction rest as [|r rest IH]; intros i Hi Hlen; cbn [report_lines].
  - split; [constructor|lia].
  - unfold len in Hlen. cbn [length] in Hlen.
    destruct (IH (i + 1) ltac:(lia) ltac:(unfold len; lia)) as [IHs IHc].
    rewrite !count_inode_lines_app.
    destruct (classify_entry_spec inodes name_map only_allocated only_deleted i r)
      as (ft & Hft & ->); [unfold len; lia|].
    destruct (classify_entry_spec inodes name_map false false i r)
      as (ft' & Hft' & ->); [unfold len; lia|].
    assert (ft' = ft) as -> by congruence.
    cbn [andb orb fst].
    destruct (_ || _); cbn [fst].
    + split.
      * apply sublist_app; [apply sublist_nil_l|exact IHs].
      * cbn [count_inode_lines].
        destruct (has_times_of r); cbn [count_inode_lines]; lia.
    + split; [apply sublist_app; [reflexivity|exact IHs]|lia].
Qed.

(** X13: for a record that is not inode 128 and whose type code is a
    nonzero nibble the label depends on the type code alone, not on the
    timestamps or the neighbours: the name of the table for the seven known
    codes, and [Unknown (0x<code>)] with the code as an upper-case hex
    digit for the other eight. *)
Theorem nonzero_type_code_label
    (inodes : list inode_rec) (i : Z) (r : inode_rec) :
  inode r <> 128 ->
  1 <= type_code r <= 15 ->
  file_type_of inodes i r = Ok (nibble_label (type_code r)).
Proof.
  intros H128 Htc. unfold file_type_of.
  destruct (Z.eqb_spec (inode r) 128); [contradiction|].
  assert (type_code r = 1 \/ type_code r = 2 \/ type_code r = 3
          \/ type_code r = 4 \/ type_code r = 5 \/ type_code r = 6
          \/ type_code r = 7 \/ type_code r = 8 \/ type_code r = 9
          \/ type_code r = 10 \/ type_code r = 11 \/ type_code r = 12
          \/ type_code r = 13 \/ type_code r = 14 \/ type_code r = 15)
    as Hcases by lia.
  repeat (destruct Hcases as [->|Hcases]; [reflexivity|]).
  rewrite Hcases. reflexivity.
Qed.

Lemma nonzero_type_code_label_witness :
  file_type_of [] 7 (mkInode 3 11 0 0 0) = Ok "Unknown (0xB)"%string.
Proof.
  apply (nonzero_type_code_label [] 7 (mkInode 3 11 0 0 0)); cbn; lia.
Defined.

(** ** What the short-form scan reports *)

(** X14: a record returned by [parse_shortform_inode] carries the offset
    it was asked for, an entry count between 1 and 255 and an unsigned
    64-bit inode number, and it is returned only for a window of 256 whole
    bytes; when fewer than 256 bytes follow a non-negative offset the
    result is [None]. *)
Theorem parse_shortform_inode_record_bounds
    (data : list byte) (offset : Z) (r : shortform_rec) :
  parse_shortform_inode data offset = Ok (Some r) ->
  sf_offset r = offset
  /\ 1 <= sf_entry_count r <= 255
  /\ 0 <= sf_inode_number r < 2 ^ 64
  /\ len (py_slice data offset (offset + 256)) = 256
  /\ (0 <= offset -> offset + 256 <= len data)
  /\ (forall data' : list byte,
        len data' < offset + 256 -> 0 <= offset ->
        parse_shortform_inode data' offset = Ok None).
Proof.
  intros Hparse. unfold parse_shortform_inode in Hparse.
  destruct (Z.ltb_spec (len (py_slice data offset (offset + 256))) 256)
    as [|Hlen]; [discriminate|].
  cbn [orb] in Hparse.
  destruct (negb _); [discriminate|].
  destruct (py_getitem _ 176) as [x| |]; cbn [rbind] in Hparse; try discriminate.
  destruct (Z.eqb_spec (byte_val x) 0) as [|Hnz]; [discriminate|].
  injection Hparse as <-. cbn [sf_offset sf_entry_count sf_inode_number].
  pose proof (byte_val_range x).
  assert (len (py_slice data offset (offset + 256)) <= 256) as Hle.
  { unfold py_slice. rewrite len_take.
    unfold norm_index. pose proof (len_nonneg data).
    destruct (Z.ltb_spec offset 0), (Z.ltb_spec (offset + 256) 0); lia. }
  split; [reflexivity|]. split; [lia|]. split; [|split; [lia|split]].
  - pose proof (int_from_bytes_big_range
                  (py_slice (py_slice data offset (offset + 256)) 152 160)) as Hr.
    rewrite len_py_slice in Hr by lia.
    replace (Z.max 0 (Z.min (160 - 152)
                        (len (py_slice data offset (offset + 256)) - 152)))
      with 8 in Hr by lia.
    exact Hr.
  - intros Ho. rewrite len_py_slice in Hlen by lia. lia.
  - intros data' Hshort Ho. unfold parse_shortform_inode.
    rewrite len_py_slice by lia.
    destruct (Z.ltb_spec (Z.max 0 (Z.min (offset + 256 - offset)
                                     (len data' - offset))) 256);
      [reflexivity|lia].
Qed.

Lemma parse_shortform_inode_record_bounds_witness :
  sf_offset (mkShortform 0 16 5) = 16
  /\ 1 <= sf_entry_count (mkShortform 0 16 5) <= 255
  /\ 0 <= sf_inode_number (mkShortform 0 16 5) < 2 ^ 64
  /\ len (py_slice buffer_shadowed_window 16 (16 + 256)) = 256
  /\ (0 <= 16 -> 16 + 256 <= len buffer_shadowed_window)
  /\ (forall data' : list byte,
        len data' < 16 + 256 -> 0 <= 16 ->
        parse_shortform_inode data' 16 = Ok None).
Proof.
  apply (parse_shortform_inode_record_bounds buffer_shadowed_window 16).
  vm_compute. reflexivity.
Defined.

Lemma window_report_cases (data : list byte) (offset : Z) :
  window_report data offset = []
  \/ exists n c, window_report data offset = [LShortform n offset c].
Proof.
  unfold window_report, parse_shortform_inode.
  destruct (bytes_eqb _ _); [|left; reflexivity].
  destruct (_ || _); [left; reflexivity|].
  destruct (py_getitem _ _) as [x| |]; cbn; try (left; reflexivity).
  destruct (byte_val x =? 0); [left; reflexivity|].
  right. eexists _, _. reflexivity.
Qed.

(** The offsets that the loop reports from a cursor that is a multiple of
    16 are strictly ascending multiples of 16 from that cursor on. *)
Lemma shortform_loop_ascending (data : list byte) (fuel : nat) :
  forall (offset found : Z) (out : list line) (r : result Z),
    offset mod 16 = 0 ->
    shortform_loop fuel data offset found = (out, r) ->
    StronglySorted Z.lt (reported_offsets out)
    /\ Forall (fun o => offset <= o < len data - 256 /\ o mod 16 = 0)
         (reported_offsets out)
    /\ Forall (fun l => exists n o c, l = LShortform n o c) out.
Proof.
  unfold reported_offsets.
  induction fuel as [|fuel IH]; intros offset found out r Hmod Hrun.
  - injection Hrun as <- _. repeat split; constructor.
  - cbn [shortform_loop] in Hrun.
    destruct (Z.ltb_spec offset (len data - 256)) as [Hin|Hout].
    2:{ injection Hrun as <- _. repeat split; constructor. }
    rewrite shortform_body_spec in Hrun. cbn [pr_bind fst snd] in Hrun.
    destruct (shortform_loop fuel data (shortform_next data offset)
                (found + len (window_report data offset))) as [out' r'] eqn:Hrest.
    injection Hrun as <- _.
    assert (offset < shortform_next data offset
            /\ shortform_next data offset mod 16 = 0) as [Hlt Hmod'].
    { destruct (shortform_next_cases data offset) as [-> | ->];
        (split; [lia|]).
      - rewrite <- Z.add_mod_idemp_l, Hmod by lia. reflexivity.
      - rewrite <- Z.add_mod_idemp_l, Hmod by lia. reflexivity. }
    destruct (IH _ _ _ _ Hmod' Hrest) as (Hsorted & Hrange & Hlines).
    assert (Forall (fun o => offset < o < len data - 256 /\ o mod 16 = 0)
              (omap report_offset out')) as Hrange'.
    { eapply Forall_impl; [exact Hrange|]. cbn. intros o Ho. lia. }
    rewrite omap_app.
    destruct (window_report_cases data offset) as [->|(n & c & ->)]; cbn.
    + split; [exact Hsorted|]. split; [|exact Hlines].
      eapply Forall_impl; [exact Hrange'|]. cbn. intros o Ho. lia.
    + split; [|split].
      * constructor; [exact Hsorted|].
        eapply Forall_impl; [exact Hrange'|]. cbn. intros o Ho. lia.
      * constructor; [lia|].
        eapply Forall_impl; [exact Hrange'|]. cbn. intros o Ho. lia.
      * constructor; [eauto|exact Hlines].
Qed.

(** X15: the short-form scan returns on every buffer; the offsets of the
    records it reports are strictly ascending multiples of 16 between 0 and
    the buffer length minus 257; and it prints the line that nothing was
    found exactly when it reported no record. *)
Theorem shortform_reports_ascending_strides (data : list byte) :
  exists out,
    scan_shortform_inodes data = (out, Ok tt)
    /\ StronglySorted Z.lt (reported_offsets out)
    /\ Forall (fun o => 0 <= o < len data - 256 /\ o mod 16 = 0)
         (reported_offsets out)
    /\ (In LNoneFound out <-> reported_offsets out = []).
Proof.
  destruct (scan_shortform_inodes_returns data) as (reports & Hscan & Hloop & _).
  destruct (shortform_loop_ascending data _ 0 0 _ _ eq_refl Hloop)
    as (Hsorted & Hrange & Hlines).
  eexists. split; [exact Hscan|].
  assert (reported_offsets
            (LScanning :: reports ++ (if len reports =? 0 then [LNoneFound] else []))
          = reported_offsets reports) as ->.
  { unfold reported_offsets. cbn. rewrite omap_app.
    destruct (len reports =? 0); cbn; rewrite app_nil_r; reflexivity. }
  split; [exact Hsorted|]. split; [exact Hrange|].
  destruct reports as [|l reports].
  - cbn. split; [reflexivity|]. intros _. right. left. reflexivity.
  - inversion Hlines as [|? ? (n & o & c & ->) Hlines']; subst.
    change (len (LShortform n o c :: reports) =? 0)
      with (Z.of_nat (S (length reports)) =? 0).
    destruct (Z.eqb_spec (Z.of_nat (S (length reports))) 0); [lia|].
    rewrite app_nil_r. split; [|discriminate].
    intros [H|[H|H]]; try discriminate H. exfalso.
    rewrite List.Forall_forall in Hlines'.
    destruct (Hlines' _ H) as (? & ? & ? & ?). discriminate.
Qed.

(** X22: for a cursor that the loop visits below the buffer length minus
    256, the scan reports a record at that offset once when
    [parse_shortform_inode] accepts the window there, with the inode number
    and entry count it decoded, and never when it rejects the window. *)
Theorem visited_window_reported_iff_accepted (data : list byte) (X : Z) :
  cursor_reaches data X ->
  X < len data - 256 ->
  exists out result,
    scan_shortform_inodes data = (out, Ok tt)
    /\ parse_shortform_inode data X = Ok result
    /\ count_reports_at X out = match result with Some _ => 1%nat | None => 0%nat end
    /\ (forall r, result = Some r ->
                  In (LShortform (sf_inode_number r) X (sf_entry_count r)) out).
Proof.
  intros Hreach HX.
  destruct (parse_shortform_inode_returns data X) as ([r|] & Hparse).
  - destruct (visited_valid_window_reported_once data X r Hreach HX Hparse)
      as (out & Hscan & Hcount & Hin).
    exists out, (Some r). repeat split; auto.
    intros r' [= <-]. exact Hin.
  - destruct (rejected_window_not_reported data X Hparse) as (out & Hscan & Hcount).
    exists out, None. repeat split; auto. intros r' H. discriminate H.
Qed.

Lemma visited_window_reported_iff_accepted_witness :
  exists out result,
    scan_shortform_inodes buffer_one_window = (out, Ok tt)
    /\ parse_shortform_inode buffer_one_window 0 = Ok result
    /\ count_reports_at 0 out = match result with Some _ => 1%nat | None => 0%nat end
    /\ (forall r, result = Some r ->
                  In (LShortform (sf_inode_number r) 0 (sf_entry_count r)) out).
Proof.
  apply (visited_window_reported_iff_accepted buffer_one_window 0).
  - apply reaches_here.
  - vm_compute. reflexivity.
Defined.

(** ** What the name resolver returns *)

Lemma py_split_ws1_length (s : string) : (length (py_split_ws1 s) <= 2)%nat.
Proof.
  unfold py_split_ws1.
  destruct (py_lstrip s); [cbn; lia|].
  destruct (break_space _) as [tok rest].
  destruct (py_lstrip rest); cbn; lia.
Qed.

(** One iteration of the loop, by what the line stands for. *)
Lemma ncheck_lines_cons (line : string) (lines : list string)
    (name_map : gmap Z string) :
  ncheck_lines (line :: lines) name_map
  = match py_split_ws1 (py_strip line) with
    | [p0; p1] =>
        match line_entry line with
        | Some (n, name) => ncheck_lines lines (<[n := name]> name_map)
        | None => (name_map, Raise (ValueError p0))
        end
    | _ => ncheck_lines lines name_map
    end.
Proof.
  cbn [ncheck_lines]. unfold line_entry.
  destruct (py_split_ws1 (py_strip line)) as [|p0 [|p1 [|p2 ps]]];
    try reflexivity.
  destruct (py_int_outcome p0) as [[n ->]| ->]; reflexivity.
Qed.

Lemma line_accepted_cases (line : string) :
  line_accepted line
  \/ exists p0 p1, py_split_ws1 (py_strip line) = [p0; p1]
                   /\ py_int p0 = Raise (ValueError p0).
Proof.
  unfold line_accepted.
  destruct (py_split_ws1 (py_strip line)) as [|p0 [|p1 [|p2 ps]]];
    try (left; intros ? ? H; discriminate H).
  destruct (py_int_outcome p0) as [[n Hn]|Hraise].
  - left. intros ? ? [= <- <-]. eauto.
  - right. eauto.
Qed.

(** The loop ends normally exactly when every line is accepted, and then
    the mapping sends an inode number to the name on the last line that is
    an entry for it, and otherwise to what it held before. *)
Lemma ncheck_lines_lookup (lines : list string) :
  forall name_map : gmap Z string,
    (Forall line_accepted lines ->
     exists m, ncheck_lines lines name_map = (m, Ok tt)
               /\ forall k, m !! k = match last_entry lines k with
                                     | Some name => Some name
                                     | None => name_map !! k
                                     end)
    /\ (~ Forall line_accepted lines ->
        exists m e, ncheck_lines lines name_map = (m, Raise e)).
Proof.
  induction lines as [|line lines IH]; intros name_map.
  { split; [|intros H; exfalso; apply H; constructor].
    intros _. exists name_map. split; [reflexivity|]. intros k. reflexivity. }
  rewrite ncheck_lines_cons.
  destruct (line_accepted_cases line) as [Hacc|(p0 & p1 & Hsplit & Hint)].
  - (* the line is accepted *)
    assert (forall nm' : gmap Z string,
               (forall k, nm' !! k = match line_entry line with
                                     | Some (n, name) =>
                                         if n =? k then Some name else name_map !! k
                                     | None => name_map !! k
                                     end) ->
               (Forall line_accepted (line :: lines) ->
                exists m, ncheck_lines lines nm' = (m, Ok tt)
                          /\ forall k, m !! k
                                       = match last_entry (line :: lines) k with
                                         | Some name => Some name
                                         | None => name_map !! k
                                         end)
               /\ (~ Forall line_accepted (line :: lines) ->
                   exists m e, ncheck_lines lines nm' = (m, Raise e))) as Hstep.
    { intros nm' Hnm'. destruct (IH nm') as [IHok IHbad]. split.
      - intros Hall. inversion Hall as [|? ? _ Hall']; subst.
        destruct (IHok Hall') as (m & Hrun & Hlook).
        exists m. split; [exact Hrun|]. intros k. rewrite Hlook.
        cbn [last_entry]. destruct (last_entry lines k); [reflexivity|].
        rewrite Hnm'. destruct (line_entry line) as [[n name]|]; [|reflexivity].
        destruct (n =? k); reflexivity.
      - intros Hnot. apply IHbad. intros Hall'. apply Hnot.
        constructor; assumption. }
    destruct (py_split_ws1 (py_strip line)) as [|p0 [|p1 [|p2 ps]]] eqn:Hsplit;
      try (apply Hstep; intros k; unfold line_entry; rewrite Hsplit;
           reflexivity).
    destruct (Hacc p0 p1 Hsplit) as (n & Hn).
    assert (line_entry line = Some (n, py_strip p1)) as Hentry
      by (unfold line_entry; rewrite Hsplit, Hn; reflexivity).
    rewrite Hentry. apply Hstep. intros k. rewrite Hentry.
    destruct (Z.eqb_spec n k) as [->|Hne].
    + apply lookup_insert_eq.
    + apply lookup_insert_ne. exact Hne.
  - (* the line is refused *)
    rewrite Hsplit. unfold line_entry. rewrite Hsplit, Hint. split.
    + intros Hall. inversion Hall as [|? ? Hacc _]; subst.
      destruct (Hacc p0 p1 Hsplit) as (n & Hn). congruence.
    + intros _. eexists _, _. reflexivity.
Qed.

(** X16: when every line of the utility's output is accepted, the
    resolver prints no warning and the mapping it returns sends an inode
    number to the stripped name on the last line that is an entry for that
    number, and holds no other number. *)
Theorem resolver_last_line_wins
    (xfs_ncheck : string -> exn + string) (image_path output : string) :
  xfs_ncheck image_path = inr output ->
  Forall line_accepted (py_split_char "010" (py_strip output)) ->
  exists m : gmap Z string,
    parse_xfs_ncheck xfs_ncheck image_path = ([], Ok m)
    /\ forall k, m !! k = last_entry (py_split_char "010" (py_strip output)) k.
Proof.
  intros Hrun Hall. unfold parse_xfs_ncheck. rewrite Hrun.
  destruct (ncheck_lines_lookup (py_split_char "010" (py_strip output)) ∅)
    as [Hok _].
  destruct (Hok Hall) as (m & -> & Hlook).
  exists m. split; [reflexivity|].
  intros k. rewrite Hlook, lookup_empty.
  destruct (last_entry _ k); reflexivity.
Qed.

Lemma resolver_last_line_wins_witness :
  exists m : gmap Z string,
    parse_xfs_ncheck ncheck_repeated_inode "image" = ([], Ok m)
    /\ m !! 5 = Some "/new name"%string
    /\ m !! 6 = None.
Proof.
  assert (py_split_char "010" (py_strip "5 /old

   5    /new name  ") = ["5 /old"; ""; "   5    /new name"]%string) as Hlines
    by (vm_compute; reflexivity).
  destruct (resolver_last_line_wins ncheck_repeated_inode "image"
              "5 /old

   5    /new name  ") as (m & Hrun & Hlook).
  - reflexivity.
  - rewrite Hlines.
    constructor; [|constructor; [|constructor; [|constructor]]];
      intros p0 p1 H; vm_compute in H; try discriminate H;
      injection H as <- _; exists 5; vm_compute; reflexivity.
  - exists m. split; [exact Hrun|]. rewrite !Hlook, Hlines.
    split; vm_compute; reflexivity.
Defined.

Lemma lines_accepted_or_not (lines : list string) :
  Forall line_accepted lines \/ ~ Forall line_accepted lines.
Proof.
  induction lines as [|line lines [IH|IH]].
  - left. constructor.
  - destruct (line_accepted_cases line) as [Hacc|(p0 & p1 & Hsplit & Hint)].
    + left. constructor; assumption.
    + right. intros Hall. inversion Hall as [|? ? Hacc _]; subst.
      destruct (Hacc p0 p1 Hsplit) as (n & Hn). congruence.
  - right. intros Hall. inversion Hall; subst. contradiction.
Qed.

(** X17: the resolver prints its warning exactly when the utility could
    not be run or some line with two fields does not start with an inode
    number; it never prints more than that one line. *)
Theorem resolver_warns_iff_failure
    (xfs_ncheck : string -> exn + string) (image_path : string) :
  (fst (parse_xfs_ncheck xfs_ncheck image_path) = []
   <-> exists output,
         xfs_ncheck image_path = inr output
         /\ Forall line_accepted (py_split_char "010" (py_strip output)))
  /\ (fst (parse_xfs_ncheck xfs_ncheck image_path) = []
      \/ exists e, fst (parse_xfs_ncheck xfs_ncheck image_path) = [LWarning e]).
Proof.
  unfold parse_xfs_ncheck.
  destruct (xfs_ncheck image_path) as [e|output].
  { cbn. split; [|right; eauto].
    split; [discriminate|intros (o & H & _); discriminate H]. }
  destruct (ncheck_lines_lookup (py_split_char "010" (py_strip output)) ∅)
    as [Hok Hbad].
  destruct (lines_accepted_or_not (py_split_char "010" (py_strip output)))
    as [Hall|Hnot].
  - destruct (Hok Hall) as (m & -> & _). cbn.
    split; [|left; reflexivity].
    split; [intros _; exists output; auto|reflexivity].
  - destruct (Hbad Hnot) as (m & e & ->). cbn.
    split; [|right; eauto].
    split; [discriminate|].
    intros (o & [= <-] & Hall). contradiction.
Qed.

(** X18: a line of the utility's output without two fields (a blank line,
    a single word) is skipped: the mapping and the outcome are those of the
    output without that line. *)
Theorem resolver_skips_short_lines
    (pre post : list string) (short : string) (name_map : gmap Z string) :
  (length (py_split_ws1 (py_strip short)) < 2)%nat ->
  ncheck_lines (pre ++ short :: post) name_map
  = ncheck_lines (pre ++ post) name_map.
Proof.
  intros Hshort. revert name_map.
  induction pre as [|line pre IH]; intros name_map; cbn [app].
  - rewrite ncheck_lines_cons.
    destruct (py_split_ws1 (py_strip short)) as [|p0 [|p1 [|p2 ps]]];
      try reflexivity; cbn in Hshort; lia.
  - rewrite !ncheck_lines_cons.
    destruct (py_split_ws1 (py_strip line)) as [|p0 [|p1 [|p2 ps]]];
      try apply IH.
    destruct (line_entry line) as [[n name]|]; [apply IH|reflexivity].
Qed.

Lemma resolver_skips_short_lines_witness :
  ncheck_lines (["5 /old"%string] ++ "   "%string :: ["5 /new"%string]) ∅
  = ncheck_lines (["5 /old"%string] ++ ["5 /new"%string]) ∅.
Proof.
  apply (resolver_skips_short_lines ["5 /old"%string] ["5 /new"%string]
           "   "%string ∅).
  vm_compute. lia.
Defined.

(** ** How [main] composes the parts *)

Lemma detect_xfs_magic_readable (f : file) :
  fault f = None ->
  detect_xfs_magic f
  = Ok (bytes_eqb (take 4 (content f)) XFS_SUPERBLOCK_MAGIC,
        mkFile (content f) (0 + len (take 4 (content f))) None).
Proof.
  intros Hf. unfold detect_xfs_magic, io_bind, f_seek, f_read, io_ret.
  cbn [XFS_SUPERBLOCK_OFFSET Z.ltb Z.compare content position fault].
  rewrite Hf.
  change (Z.to_nat 4) with 4%nat. change (Z.to_nat 0) with 0%nat.
  rewrite drop_0. reflexivity.
Qed.

(** X19: the superblock test gates everything: on a readable image whose
    first four bytes are not [XFSB] the run prints the two lines of the
    test and nothing else, in every mode, without scanning and without
    running the resolver. *)
Theorem main_stops_when_not_xfs
    (xfs_ncheck : string -> exn + string) (open_rb : string -> exn + file)
    (image_path : string) (only_allocated only_deleted shortform : bool)
    (f : file) :
  open_rb image_path = inr f ->
  fault f = None ->
  take 4 (content f) <> XFS_SUPERBLOCK_MAGIC ->
  main xfs_ncheck open_rb image_path only_allocated only_deleted shortform
  = ([LChecking image_path; LNotXFS], Ok tt).
Proof.
  intros Hopen Hf Hmagic. apply bytes_eqb_neq in Hmagic.
  unfold main, main_body. rewrite Hopen.
  unfold on_file, print, pr_lift. cbn [of_sum pr_bind app].
  rewrite (detect_xfs_magic_readable f Hf), Hmagic.
  reflexivity.
Qed.

Lemma main_stops_when_not_xfs_witness :
  main ncheck_missing (fun _ => inr (mkFile image_truncated 7 None))
    "image" false true false
  = ([LChecking "image"; LNotXFS], Ok tt).
Proof.
  apply (main_stops_when_not_xfs ncheck_missing
           (fun _ => inr (mkFile image_truncated 7 None))
           "image" false true false (mkFile image_truncated 7 None)).
  - reflexivity.
  - reflexivity.
  - vm_compute. discriminate.
Defined.

(** X20: in short-form mode, on a readable image that starts with [XFSB],
    the run prints the two lines of the test and then exactly what the
    short-form scan prints for the whole image read from offset 0; the
    filters and the resolver play no part. *)
Theorem main_shortform_scans_whole_image
    (xfs_ncheck : string -> exn + string) (open_rb : string -> exn + file)
    (image_path : string) (only_allocated only_deleted : bool) (f : file) :
  open_rb image_path = inr f ->
  fault f = None ->
  take 4 (content f) = XFS_SUPERBLOCK_MAGIC ->
  main xfs_ncheck open_rb image_path only_allocated only_deleted true
  = (LChecking image_path :: LDetected
       :: fst (scan_shortform_inodes (content f)),
     Ok tt).
Proof.
  intros Hopen Hf Hmagic. apply bytes_eqb_eq in Hmagic.
  unfold main, main_body. rewrite Hopen.
  unfold on_file, print, pr_lift. cbn [of_sum pr_bind app].
  rewrite (detect_xfs_magic_readable f Hf), Hmagic.
  cbn [fst snd negb pr_bind app].
  unfold f_seek, f_read_all.
  cbn [Z.ltb Z.compare pr_bind fst snd app content position fault].
  change (Z.to_nat 0) with 0%nat. rewrite drop_0.
  destruct (scan_shortform_inodes_returns (content f)) as (reports & -> & _).
  reflexivity.
Qed.

Lemma main_shortform_scans_whole_image_witness :
  main ncheck_missing
    (fun _ => inr (mkFile (XFS_SUPERBLOCK_MAGIC ++ buffer_one_window) 0 None))
    "image" false false true
  = (LChecking "image" :: LDetected
       :: fst (scan_shortform_inodes (XFS_SUPERBLOCK_MAGIC ++ buffer_one_window)),
     Ok tt).
Proof.
  apply (main_shortform_scans_whole_image ncheck_missing
           (fun _ => inr (mkFile (XFS_SUPERBLOCK_MAGIC ++ buffer_one_window) 0 None))
           "image" false false
           (mkFile (XFS_SUPERBLOCK_MAGIC ++ buffer_one_window) 0 None));
    reflexivity.
Defined.

(** X21: in the default mode, on a readable image that starts with
    [XFSB], the run scans the image from offset 0 with its length as the
    file size; without a record it prints only that no inode was found and
    does not run the resolver; otherwise it prints the resolver's warning,
    if any, and then the report of the classifier for the scanned records
    and the resolver's mapping. *)
Theorem main_default_scans_then_classifies
    (xfs_ncheck : string -> exn + string) (open_rb : string -> exn + file)
    (image_path : string) (only_allocated only_deleted : bool) (f : file) :
  open_rb image_path = inr f ->
  fault f = None ->
  take 4 (content f) = XFS_SUPERBLOCK_MAGIC ->
  exists inodes f' warning name_map report,
    scan_and_classify_inodes (len (content f)) (mkFile (content f) 0 None)
    = Ok (inodes, f')
    /\ parse_xfs_ncheck xfs_ncheck image_path = (warning, Ok name_map)
    /\ classify_and_print inodes name_map only_allocated only_deleted
       = (report, Ok tt)
    /\ main xfs_ncheck open_rb image_path only_allocated only_deleted false
       = (LChecking image_path :: LDetected
            :: match inodes with
               | [] => [LNoInodes]
               | _ => warning ++ report
               end,
          Ok tt).
Proof.
  intros Hopen Hf Hmagic. apply bytes_eqb_eq in Hmagic.
  destruct (scan_and_classify_inodes_readable (len (content f))
              (mkFile (content f) 0 None) eq_refl) as (f' & Hscan).
  destruct (parse_xfs_ncheck_returns xfs_ncheck image_path)
    as (warning & name_map & Hnames).
  destruct (classify_and_print_returns
              (window_records (content f) (window_count (len (content f))) 0)
              name_map only_allocated only_deleted) as (report & Hreport).
  eexists _, f', warning, name_map, report.
  split; [exact Hscan|]. split; [exact Hnames|]. split; [exact Hreport|].
  unfold main, main_body. rewrite Hopen.
  unfold on_file, print, pr_lift. cbn [of_sum pr_bind app].
  rewrite (detect_xfs_magic_readable f Hf), Hmagic.
  cbn [fst snd negb pr_bind app].
  unfold f_seek_end, f_tell, f_seek.
  cbn [Z.ltb Z.compare pr_bind fst snd app content position fault].
  cbn [content] in Hscan. rewrite Hscan. cbn [pr_bind fst snd app].
  destruct (window_records (content f) (window_count (len (content f))) 0)
    as [|r rs]; [reflexivity|].
  rewrite Hnames. cbn [pr_bind]. rewrite Hreport. reflexivity.
Qed.

Lemma main_default_scans_then_classifies_witness :
  exists inodes f' warning name_map report,
    scan_and_classify_inodes (len image_one_file) (mkFile image_one_file 0 None)
    = Ok (inodes, f')
    /\ parse_xfs_ncheck ncheck_missing "image" = (warning, Ok name_map)
    /\ classify_and_print inodes name_map false false = (report, Ok tt)
    /\ main ncheck_missing (fun _ => inr (mkFile image_one_file 9 None))
         "image" false false false
       = (LChecking "image" :: LDetected
            :: match inodes with
               | [] => [LNoInodes]
               | _ => warning ++ report
               end,
          Ok tt).
Proof.
  apply (main_default_scans_then_classifies ncheck_missing
           (fun _ => inr (mkFile image_one_file 9 None))
           "image" false false (mkFile image_one_file 9 None));
    reflexivity.
Defined.

(** X23: once [parse_args] has returned (lines 200-209), the script ends
    with an exit status and not with an exception: status 1 and the usage
    line alone when more than one of the three flags is set, whatever the
    image is, and status 0 with the output of [main] otherwise, also when
    [main] met an error. *)
Theorem script_exit_status
    (xfs_ncheck : string -> exn + string) (open_rb : string -> exn + file)
    (image_path : string) (allocated deleted shortform : bool) :
  exists out status,
    script xfs_ncheck open_rb image_path allocated deleted shortform
    = (out, Ok status)
    /\ (status = 1 \/ status = 0)
    /\ (status = 1 <->
        1 < Z.b2z allocated + Z.b2z deleted + Z.b2z shortform)
    /\ (status = 1 -> out = [LUsage])
    /\ (status = 0 ->
        main xfs_ncheck open_rb image_path allocated deleted shortform
        = (out, Ok tt)).
Proof.
  unfold script.
  destruct (Z.ltb_spec 1 (Z.b2z allocated + Z.b2z deleted + Z.b2z shortform)).
  - eexists _, _. split; [reflexivity|]. cbn.
    repeat split; auto; intros; lia.
  - destruct (main_returns xfs_ncheck open_rb image_path allocated deleted shortform)
      as (out & Hmain).
    rewrite Hmain. eexists _, _. split; [reflexivity|]. cbn.
    rewrite app_nil_r.
    repeat split; auto; intros; try lia; discriminate.
Qed.

(** ** The digit limit of [int] *)

(** A literal with more than [INT_MAX_STR_DIGITS] digits is refused. *)
Lemma py_int_refuses_long_literals (s : string) :
  INT_MAX_STR_DIGITS < digit_count (py_strip s) ->
  py_int s = Raise (ValueError s).
Proof.
  intros Hlong. unfold py_int.
  match goal with |- context [match ?r with Some _ => _ | None => _ end] =>
    destruct r end; [|reflexivity].
  destruct (Z.ltb_spec INT_MAX_STR_DIGITS (digit_count (py_strip s)));
    [reflexivity|lia].
Qed.

(** 4300 digits are accepted, 4301 are refused. *)
Example scenario_digit_limit :
  (exists n, py_int (repeat_char "1" 4300) = Ok n)
  /\ py_int (repeat_char "1" 4301) = Raise (ValueError (repeat_char "1" 4301)).
Proof.
  split; [|apply py_int_refuses_long_literals; vm_compute; reflexivity].
  assert (match py_int (repeat_char "1" 4300) with
          | Ok _ => true
          | _ => false
          end = true) as Hok by (vm_compute; reflexivity).
  destruct (py_int (repeat_char "1" 4300)) as [n| |];
    [exists n; reflexivity|discriminate Hok..].
Qed.

(** A line whose inode number has 4301 digits makes the resolver warn and
    return the empty mapping. *)
Example scenario_huge_inode_number :
  parse_xfs_ncheck ncheck_huge_number "image"
  = ([LWarning (ValueError (repeat_char "1" 4301))], Ok ∅).
Proof. vm_compute. reflexivity. Qed.
